(** * CH423 GPIO expander driver (ch423.c): shallow embedding and properties

    The driver keeps, per device, a cached copy of the chip configuration
    byte, the direction of the eight bidirectional lines and the last output
    word.  Every function of the driver is embedded as a state transformer
    over that device record and over the list of i2c messages handed to the
    adapter so far.  The adapter itself is an external collaborator: it is a
    parameter of the whole development.

    The embedding is sequential.  [ch423_gpio_set] and
    [ch423_gpio_set_multiple] hold [dev->lock] around their whole body, so
    the [mutex_lock]/[mutex_unlock] pair has no counterpart here. *)

From Stdlib Require Import ZArith List Bool Lia.
Import ListNotations.
Local Open Scope Z_scope.

(** ** C integer types

    The target is a 64-bit kernel: [unsigned long] has 64 bits, [int] has 32
    and [u8] has 8.  Conversions wrap around. *)
Module CInt.

Definition to_u8 (x : Z) : Z := x mod 2 ^ 8.

Definition to_ulong (x : Z) : Z := x mod 2 ^ 64.

Definition to_int (x : Z) : Z := (x + 2 ^ 31) mod 2 ^ 32 - 2 ^ 31.

(** [BIT(nr)] is [1UL << nr]. *)
Definition BIT (nr : Z) : Z := to_ulong (Z.shiftl 1 nr).

(** [GENMASK(h, l)]: bits [l..h] set. *)
Definition GENMASK (h l : Z) : Z := to_ulong (Z.shiftl (Z.ones (h - l + 1)) l).

(** [~x] at type [unsigned long]. *)
Definition ulong_not (x : Z) : Z := to_ulong (Z.lnot x).

(** Byte [k] of a word, [(x >> 8k) & 0xff]. *)
Definition byte (k : Z) (x : Z) : Z := Z.land (Z.shiftr x (8 * k)) 0xff.

End CInt.
Import CInt.

(** ** Constants *)

Definition CMD_SET_OC_L : Z := 0x22.
Definition CMD_SET_OC_H : Z := 0x23.
Definition CMD_CFG : Z := 0x24.
Definition CMD_CFG_IO_OE : Z := BIT 0.
Definition CMD_CFG_DEC_L : Z := BIT 1.
Definition CMD_CFG_DEC_H : Z := BIT 2.
Definition CMD_CFG_X_INT : Z := BIT 3.
Definition CMD_CFG_OD_EN : Z := BIT 4.
Definition CMD_CFG_INTENS : Z := GENMASK 6 5.
Definition CMD_CFG_SLEEP : Z := BIT 7.
Definition CMD_READ_IO : Z := 0x26.
Definition CMD_SET_IO : Z := 0x30.

(** Kernel constants used by the driver (linux/gpio/driver.h, linux/i2c.h,
    linux/errno.h). *)
Definition GPIO_LINE_DIRECTION_OUT : Z := 0.
Definition GPIO_LINE_DIRECTION_IN : Z := 1.
Definition I2C_M_RD : Z := 1.
Definition EINVAL : Z := 22.
Definition ENOTSUPP : Z := 524.

(** The pin configuration parameters the driver distinguishes; every other
    enumerator of [enum pin_config_param] is kept with its code. *)
Inductive pin_config_param : Type :=
| PIN_CONFIG_DRIVE_OPEN_DRAIN
| PIN_CONFIG_DRIVE_PUSH_PULL
| PIN_CONFIG_OTHER (code : Z).

(** ** Data model *)

(** [struct i2c_msg] as the driver fills it.  [buf] points to the one byte
    parameter: [Some b] is the byte to be written, [None] stands for the
    not yet written receive buffer of a read. *)
Record i2c_msg : Type := mk_msg {
  addr : Z;
  flags : Z;
  len : Z;
  buf : option Z
}.

(** What one call of [i2c_transfer] produces: its return value (negative
    errno, or the number of messages transferred) and, for a read, the byte
    stored through [buf]. *)
Record reply : Type := mk_reply {
  status : Z;
  rdata : Z
}.

(** The adapter answers a message knowing the messages it has seen before. *)
Definition adapter : Type := list i2c_msg -> i2c_msg -> reply.

(** [struct ch423], without the handles ([client], [gpio]) and the lock. *)
Record ch423 : Type := mk_ch423 {
  config : Z;
  io_dir : Z;
  last_output : Z
}.

(** The device record together with the messages sent on the bus so far. *)
Record world : Type := mk_world {
  dev : ch423;
  wire : list i2c_msg
}.

(** ** A monad for C function bodies: state plus early [return] *)

Inductive flow (A : Type) : Type :=
| Next (a : A)
| Return (r : Z).
Arguments Next {A} a.
Arguments Return {A} r.

Definition body (A : Type) : Type := world -> flow A * world.

Definition pure {A : Type} (a : A) : body A := fun w => (Next a, w).

Definition bind {A B : Type} (c : body A) (k : A -> body B) : body B :=
  fun w =>
    match c w with
    | (Next a, w') => k a w'
    | (Return r, w') => (Return r, w')
    end.

Definition c_return {A : Type} (r : Z) : body A := fun w => (Return r, w).

Definition when (b : bool) (c : body unit) : body unit :=
  if b then c else pure tt.

Declare Scope body_scope.
Delimit Scope body_scope with body.
Notation "x <- c ;; k" := (bind c (fun x => k))
  (at level 61, c at next level, right associativity) : body_scope.
Notation "c ;; k" := (bind c (fun _ => k))
  (at level 61, right associativity) : body_scope.
Local Open Scope body_scope.

(** A function returning [int]: its body runs to a [return]. *)
Definition run (c : body Z) (w : world) : Z * world :=
  match c w with
  | (Next r, w') => (r, w')
  | (Return r, w') => (r, w')
  end.

(** A [void] function. *)
Definition run_void (c : body unit) (w : world) : unit * world :=
  (tt, snd (c w)).

(** Calling a function from a body. *)
Definition call {A : Type} (f : world -> A * world) : body A :=
  fun w => let (r, w') := f w in (Next r, w').

Definition get_dev : body ch423 := fun w => (Next (dev w), w).

Definition set_config_field (c : Z) : body unit :=
  fun w => (Next tt, mk_world (mk_ch423 c (io_dir (dev w)) (last_output (dev w))) (wire w)).

Definition set_io_dir (d : Z) : body unit :=
  fun w => (Next tt, mk_world (mk_ch423 (config (dev w)) d (last_output (dev w))) (wire w)).

Definition set_last_output (v : Z) : body unit :=
  fun w => (Next tt, mk_world (mk_ch423 (config (dev w)) (io_dir (dev w)) v) (wire w)).

(** ** The driver *)

Section Driver.

(** The i2c adapter behind [dev->client->adapter]. *)
Variable bus : adapter.

(** [write_outputs] declares [int ret;] without initialising it and may test
    it before any assignment: this is the value it then holds. *)
Variable ret_indet : Z.

(** [pinconf_to_config_param] of linux/pinctrl/pinconf-generic.h. *)
Variable pinconf_to_config_param : Z -> pin_config_param.

(** [i2c_transfer(dev->client->adapter, &msg, 1)] *)
Definition i2c_transfer (m : i2c_msg) : body reply :=
  fun w => (Next (bus (wire w) m), mk_world (dev w) (wire w ++ [m])).

Definition ch423_gpio_get_direction (offset : Z) (w : world) : Z * world :=
  run (
    d <- get_dev ;;
    if 8 <=? offset
    then c_return GPIO_LINE_DIRECTION_OUT
    else c_return (io_dir d)) w.

Definition ch423_gpio_get (offset : Z) (w : world) : Z * world :=
  run (
    r <- i2c_transfer (mk_msg CMD_READ_IO I2C_M_RD 1 None) ;;
    when (status r <? 0) (c_return (status r)) ;;
    c_return (Z.land (Z.shiftr (to_u8 (rdata r)) offset) 0x01)) w.

Definition write_outputs (values : Z) (w : world) : Z * world :=
  run (
    d <- get_dev ;;
    ret <- (if (io_dir d =? GPIO_LINE_DIRECTION_OUT)
               && negb (Z.land values 0xff =? Z.land (last_output d) 0xff)
            then
              r <- i2c_transfer
                     (mk_msg CMD_SET_IO 0 1 (Some (to_u8 (Z.land values 0xff)))) ;;
              when (status r <? 0) (c_return (status r)) ;;
              pure (status r)
            else pure ret_indet) ;;
    d <- get_dev ;;
    ret <- (if negb (Z.land values 0xff00 =? Z.land (last_output d) 0xff00)
            then
              r <- i2c_transfer
                     (mk_msg CMD_SET_OC_L 0 1
                        (Some (to_u8 (Z.land (Z.shiftr values 8) 0xff)))) ;;
              when (status r <? 0) (c_return (status r)) ;;
              pure (status r)
            else pure ret) ;;
    d <- get_dev ;;
    (if negb (Z.land values 0xff0000 =? Z.land (last_output d) 0xff0000)
     then
       _ <- i2c_transfer
              (mk_msg CMD_SET_OC_H 0 1
                 (Some (to_u8 (Z.land (Z.shiftr values 16) 0xff)))) ;;
       when (ret <? 0) (c_return ret)
     else pure tt) ;;
    set_last_output values ;;
    c_return 0) w.

(** The word [ch423_gpio_set_multiple] hands to [write_outputs]. *)
Definition set_multiple_values (last mask bits : Z) : Z :=
  Z.lor (Z.land last (ulong_not mask)) (Z.land bits mask).

Definition ch423_gpio_set_multiple (mask bits : Z) (w : world) : unit * world :=
  run_void (
    d <- get_dev ;;
    _ <- call (write_outputs (set_multiple_values (last_output d) mask bits)) ;;
    pure tt) w.

(** The word [ch423_gpio_set] hands to [write_outputs]; [value << offset] is
    computed at type [int] and then converted to [unsigned long]. *)
Definition set_values (last offset value : Z) : Z :=
  Z.lor (Z.land last (ulong_not (BIT offset)))
        (to_ulong (to_int (Z.shiftl value offset))).

Definition ch423_gpio_set (offset value : Z) (w : world) : unit * world :=
  run_void (
    d <- get_dev ;;
    _ <- call (write_outputs (set_values (last_output d) offset value)) ;;
    pure tt) w.

(** The parameter [config] has type [u8]: the argument is converted on
    entry. *)
Definition set_config (cfg : Z) (w : world) : Z * world :=
  let cfg := to_u8 cfg in
  run (
    d <- get_dev ;;
    when (config d =? cfg) (c_return 0) ;;
    r <- i2c_transfer (mk_msg CMD_CFG 0 1 (Some cfg)) ;;
    when (status r <? 0) (c_return (status r)) ;;
    set_config_field cfg ;;
    c_return 0) w.

Definition ch423_gpio_direction_input (offset : Z) (w : world) : Z * world :=
  run (
    when (8 <=? offset) (c_return (- EINVAL)) ;;
    d <- get_dev ;;
    ret <- call (set_config (Z.land (config d) (ulong_not CMD_CFG_IO_OE))) ;;
    when (ret =? 0) (set_io_dir GPIO_LINE_DIRECTION_IN) ;;
    c_return ret) w.

Definition ch423_gpio_direction_output (offset value : Z) (w : world)
  : Z * world :=
  run (
    d <- get_dev ;;
    (if (offset <? 8) && negb (io_dir d =? GPIO_LINE_DIRECTION_OUT)
     then
       ret <- call (set_config (Z.lor (config d) CMD_CFG_IO_OE)) ;;
       when (ret <? 0) (c_return ret) ;;
       set_io_dir GPIO_LINE_DIRECTION_OUT
     else pure tt) ;;
    _ <- call (ch423_gpio_set offset value) ;;
    c_return 0) w.

Definition ch423_gpio_set_config (offset cfg : Z) (w : world) : Z * world :=
  run (
    d <- get_dev ;;
    let param := pinconf_to_config_param cfg in
    when (offset <? 8) (c_return (- ENOTSUPP)) ;;
    ret <- match param with
           | PIN_CONFIG_DRIVE_OPEN_DRAIN =>
               call (set_config (Z.lor (config d) CMD_CFG_OD_EN))
           | PIN_CONFIG_DRIVE_PUSH_PULL =>
               call (set_config (Z.land (config d) (ulong_not CMD_CFG_OD_EN)))
           | PIN_CONFIG_OTHER _ => pure (- ENOTSUPP)
           end ;;
    c_return ret) w.

(** [ch423_probe], from the initialisation of the freshly zeroed device
    record on.  [add_data] is the result of the final
    [devm_gpiochip_add_data]. *)
Definition ch423_probe (add_data : Z) (w : world) : Z * world :=
  run (
    set_io_dir GPIO_LINE_DIRECTION_IN ;;
    set_config_field 0xff ;;
    ret <- call (set_config 0) ;;
    when (negb (ret =? 0)) (c_return ret) ;;
    set_last_output 0xffff00 ;;
    ret <- call (write_outputs 0) ;;
    when (negb (ret =? 0)) (c_return ret) ;;
    c_return add_data) w.

End Driver.

(** The memory [devm_kzalloc] returns, on a bus with the given history. *)
Definition zeroed (hist : list i2c_msg) : world :=
  mk_world (mk_ch423 0 0 0) hist.

(** ** Messages and scenarios used in the statements *)

(** A one byte write under command [cmd], as the driver builds it. *)
Definition out_msg (cmd b : Z) : i2c_msg := mk_msg cmd 0 1 (Some b).

(** The three output messages for a desired word. *)
Definition msg_io (values : Z) : i2c_msg := out_msg CMD_SET_IO (byte 0 values).
Definition msg_oc_l (values : Z) : i2c_msg := out_msg CMD_SET_OC_L (byte 1 values).
Definition msg_oc_h (values : Z) : i2c_msg := out_msg CMD_SET_OC_H (byte 2 values).

(** Does byte [k] of the desired word differ from the cached one? *)
Definition differs (k values : Z) (d : ch423) : bool :=
  negb (byte k values =? byte k (last_output d)).

(** A message under one of the three output commands. *)
Definition is_output_msg (m : i2c_msg) : Prop :=
  In (addr m) [CMD_SET_IO; CMD_SET_OC_L; CMD_SET_OC_H].

(** The configuration byte fits its type. *)
Definition config_in_range (d : ch423) : Prop := 0 <= config d < 256.

(** The read of the bidirectional lines. *)
Definition read_msg : i2c_msg := mk_msg CMD_READ_IO I2C_M_RD 1 None.

Definition EIO : Z := 5.

(** An adapter on which every transfer succeeds; reads deliver [b]. *)
Definition bus_ok (b : Z) : adapter := fun _ _ => mk_reply 1 b.

(** An adapter that fails every transfer under command [cmd]. *)
Definition bus_fail_on (cmd : Z) : adapter :=
  fun _ m => if addr m =? cmd then mk_reply (- EIO) 0 else mk_reply 1 0.

(** An adapter that fails its first transfer only. *)
Definition bus_fail_first : adapter :=
  fun hist _ => match hist with
                | [] => mk_reply (- EIO) 0
                | _ :: _ => mk_reply 1 0
                end.

(** A decoding of packed pin configurations: the parameter is the low byte,
    with the kernel's numbering of the two drive modes. *)
Definition pinconf_low_byte (cfg : Z) : pin_config_param :=
  let p := Z.land cfg 0xff in
  if p =? 6 then PIN_CONFIG_DRIVE_OPEN_DRAIN
  else if p =? 8 then PIN_CONFIG_DRIVE_PUSH_PULL
  else PIN_CONFIG_OTHER p.

(** A device after a successful probe, with the given direction, outputs and
    configuration. *)
Definition device (cfg dir out : Z) : world :=
  mk_world (mk_ch423 cfg dir out) [].

(** The direction of the bidirectional group and the IO_OE bit of the cached
    configuration agree. *)
Definition coherent (d : ch423) : Prop :=
  (io_dir d = GPIO_LINE_DIRECTION_OUT /\ Z.testbit (config d) 0 = true) \/
  (io_dir d = GPIO_LINE_DIRECTION_IN /\ Z.testbit (config d) 0 = false).

(** ** The callback table and sequences of calls *)

(** One call through [ch423_gpio_chip], the table of callbacks the driver
    registers with gpiolib. *)
Inductive gpio_call : Type :=
| call_get_direction (offset : Z)
| call_get (offset : Z)
| call_set (offset value : Z)
| call_set_multiple (mask bits : Z)
| call_direction_input (offset : Z)
| call_direction_output (offset value : Z)
| call_set_config (offset cfg : Z).

(** The device record and the bus after one call through the table.  [junk]
    is the value the call finds in the uninitialised [ret] of
    [write_outputs]. *)
Definition ch423_gpio_chip (bus : adapter) (junk : Z)
  (pinconf : Z -> pin_config_param) (c : gpio_call) (w : world) : world :=
  match c with
  | call_get_direction offset => snd (ch423_gpio_get_direction offset w)
  | call_get offset => snd (ch423_gpio_get bus offset w)
  | call_set offset value => snd (ch423_gpio_set bus junk offset value w)
  | call_set_multiple mask bits =>
      snd (ch423_gpio_set_multiple bus junk mask bits w)
  | call_direction_input offset => snd (ch423_gpio_direction_input bus offset w)
  | call_direction_output offset value =>
      snd (ch423_gpio_direction_output bus junk offset value w)
  | call_set_config offset cfg =>
      snd (ch423_gpio_set_config bus pinconf offset cfg w)
  end.

(** A sequence of calls, one after the other; the [n]-th call of the device's
    life finds [junk n] in [ret]. *)
Fixpoint serve (bus : adapter) (junk : nat -> Z)
  (pinconf : Z -> pin_config_param) (n : nat) (calls : list gpio_call)
  (w : world) : world :=
  match calls with
  | [] => w
  | c :: rest =>
      serve bus junk pinconf (S n) rest
        (ch423_gpio_chip bus (junk n) pinconf c w)
  end.

(** Calls as gpiolib makes them on a chip of 24 lines: line numbers and masks
    stay below [ngpio], values are 0 or 1. *)
Definition gpiolib_call (c : gpio_call) : Prop :=
  match c with
  | call_set offset value
  | call_direction_output offset value =>
      0 <= offset < 24 /\ (value = 0 \/ value = 1)
  | call_set_multiple mask bits => 0 <= mask < 2 ^ 24 /\ 0 <= bits
  | call_get_direction offset
  | call_get offset
  | call_direction_input offset => 0 <= offset < 24
  | call_set_config offset _ => 0 <= offset < 24
  end.

(** An adapter on which no transfer fails. *)
Definition reliable (bus : adapter) : Prop :=
  forall hist m, 0 <= status (bus hist m).

(** The byte most recently sent under command [cmd]. *)
Fixpoint last_written (cmd : Z) (hist : list i2c_msg) : option Z :=
  match hist with
  | [] => None
  | m :: rest =>
      match last_written cmd rest with
      | Some b => Some b
      | None => if addr m =? cmd then buf m else None
      end
  end.

(** The cached output word fits the 24 lines. *)
Definition output_in_range (d : ch423) : Prop := 0 <= last_output d < 2 ^ 24.

(** The output message of the group a line belongs to. *)
Definition group_msg (pin values : Z) : i2c_msg :=
  if pin <? 8 then msg_io values
  else if pin <? 16 then msg_oc_l values
  else msg_oc_h values.

(** What every call keeps true of the device record. *)
Definition sane (d : ch423) : Prop :=
  coherent d /\ config_in_range d /\ output_in_range d.

(** The cache mirrors the bus: the byte last sent under the configuration
    command is the cached configuration, and the byte last sent under the
    command of the low output-only group is byte 1 of the cached word. *)
Definition mirrored (w : world) : Prop :=
  last_written CMD_CFG (wire w) = Some (config (dev w)) /\
  last_written CMD_SET_OC_L (wire w) = Some (byte 1 (last_output (dev w))).

(** The same for the high output-only group and byte 2. *)
Definition mirrored_high (w : world) : Prop :=
  last_written CMD_SET_OC_H (wire w) = Some (byte 2 (last_output (dev w))).

(** ** Bit-level facts *)

Module BitFacts.

Lemma to_u8_land_ff x : to_u8 (Z.land x 0xff) = Z.land x 0xff.
Proof.
  unfold to_u8. change 0xff with (Z.ones 8).
  rewrite Z.land_ones by lia. apply Z.mod_mod. lia.
Qed.

Lemma to_u8_range x : 0 <= to_u8 x < 256.
Proof. unfold to_u8. apply Z.mod_pos_bound. lia. Qed.

(** Masking a word in place keeps the byte under the mask, shifted back. *)
Lemma land_shifted_mask x s :
  0 <= s -> Z.land x (Z.shiftl 0xff s) = Z.shiftl (Z.land (Z.shiftr x s) 0xff) s.
Proof.
  intros Hs. apply Z.bits_inj'. intros n Hn.
  rewrite Z.land_spec, !Z.shiftl_spec, Z.land_spec by assumption.
  destruct (Z_lt_le_dec n s) as [Hlt | Hge].
  - rewrite (Z.testbit_neg_r 0xff) by lia. now rewrite !andb_false_r.
  - rewrite Z.shiftr_spec by lia. now replace (n - s + s) with n by lia.
Qed.

Lemma shiftl_cancel a b s : 0 <= s -> Z.shiftl a s = Z.shiftl b s -> a = b.
Proof.
  intros Hs H.
  assert (E : Z.shiftr (Z.shiftl a s) s = Z.shiftr (Z.shiftl b s) s)
    by now rewrite H.
  rewrite !Z.shiftr_shiftl_l, Z.sub_diag in E by assumption.
  exact E.
Qed.

Lemma masked_eqb x y s :
  0 <= s ->
  (Z.land x (Z.shiftl 0xff s) =? Z.land y (Z.shiftl 0xff s))
  = (Z.land (Z.shiftr x s) 0xff =? Z.land (Z.shiftr y s) 0xff).
Proof.
  intros Hs. rewrite !land_shifted_mask by assumption.
  destruct (Z.eqb_spec (Z.land (Z.shiftr x s) 0xff) (Z.land (Z.shiftr y s) 0xff))
    as [E | N].
  - rewrite E. apply Z.eqb_refl.
  - apply Z.eqb_neq. intros E. apply N. now apply shiftl_cancel with s.
Qed.

Lemma cmp_byte0 x y : (Z.land x 0xff =? Z.land y 0xff) = (byte 0 x =? byte 0 y).
Proof. reflexivity. Qed.

Lemma cmp_byte1 x y :
  (Z.land x 0xff00 =? Z.land y 0xff00) = (byte 1 x =? byte 1 y).
Proof. exact (masked_eqb x y 8 ltac:(lia)). Qed.

Lemma cmp_byte2 x y :
  (Z.land x 0xff0000 =? Z.land y 0xff0000) = (byte 2 x =? byte 2 y).
Proof. exact (masked_eqb x y 16 ltac:(lia)). Qed.

Lemma payload0 x : to_u8 (Z.land x 0xff) = byte 0 x.
Proof. apply to_u8_land_ff. Qed.

Lemma payload1 x : to_u8 (Z.land (Z.shiftr x 8) 0xff) = byte 1 x.
Proof. apply to_u8_land_ff. Qed.

Lemma payload2 x : to_u8 (Z.land (Z.shiftr x 16) 0xff) = byte 2 x.
Proof. apply to_u8_land_ff. Qed.

End BitFacts.

(** ** The register cache: [write_outputs] and [set_config] *)

Import BitFacts.

Ltac unfold_body :=
  unfold run, run_void, bind, when, call, pure, c_return, get_dev,
    i2c_transfer, set_last_output, set_config_field, set_io_dir;
  cbn [dev wire config io_dir last_output status rdata fst snd].

Ltac split_ifs :=
  repeat match goal with
    | |- context [if ?b then _ else _] =>
        let E := fresh "E" in
        destruct b eqn:E;
        cbn [dev wire config io_dir last_output status rdata fst snd andb negb]
    end.

Section RegisterCache.

Variable bus : adapter.
Variable junk : Z.

(** [write_outputs] as a decision list: which transfers are made, where the
    function returns and what it leaves in the device record. *)
Lemma write_outputs_flat values w :
  write_outputs bus junk values w =
    let d := dev w in
    let c0 := (io_dir d =? GPIO_LINE_DIRECTION_OUT) && differs 0 values d in
    let h1 := if c0 then wire w ++ [msg_io values] else wire w in
    let r0 := status (bus (wire w) (msg_io values)) in
    if c0 && (r0 <? 0) then (r0, mk_world d h1) else
    let ret1 := if c0 then r0 else junk in
    let c1 := differs 1 values d in
    let h2 := if c1 then h1 ++ [msg_oc_l values] else h1 in
    let r1 := status (bus h1 (msg_oc_l values)) in
    if c1 && (r1 <? 0) then (r1, mk_world d h2) else
    let ret2 := if c1 then r1 else ret1 in
    let c2 := differs 2 values d in
    let h3 := if c2 then h2 ++ [msg_oc_h values] else h2 in
    if c2 && (ret2 <? 0) then (ret2, mk_world d h3) else
    (0, mk_world (mk_ch423 (config d) (io_dir d) values) h3).
Proof.
  unfold differs, msg_io, msg_oc_l, msg_oc_h, out_msg.
  rewrite <- cmp_byte0, <- cmp_byte1, <- cmp_byte2.
  rewrite <- payload0, <- payload1, <- payload2.
  destruct w as [[cfg dir out] hist].
  unfold write_outputs. cbv zeta. unfold_body.
  repeat (split_ifs; unfold_body); try reflexivity; congruence.
Qed.

(** [set_config] as a decision list. *)
Lemma set_config_flat cfg w :
  set_config bus cfg w =
    let d := dev w in
    let m := out_msg CMD_CFG (to_u8 cfg) in
    let r := status (bus (wire w) m) in
    if config d =? to_u8 cfg then (0, w)
    else if r <? 0 then (r, mk_world d (wire w ++ [m]))
    else (0, mk_world (mk_ch423 (to_u8 cfg) (io_dir d) (last_output d))
               (wire w ++ [m])).
Proof.
  unfold set_config, out_msg. unfold_body.
  destruct w as [[c dir out] hist]; cbn [dev wire config io_dir last_output].
  split_ifs; reflexivity.
Qed.

Lemma set_config_failure cfg w :
  config (dev w) <> to_u8 cfg ->
  status (bus (wire w) (out_msg CMD_CFG (to_u8 cfg))) < 0 ->
  set_config bus cfg w =
    (status (bus (wire w) (out_msg CMD_CFG (to_u8 cfg))),
     mk_world (dev w) (wire w ++ [out_msg CMD_CFG (to_u8 cfg)])).
Proof.
  intros N F. apply Z.eqb_neq in N. apply Z.ltb_lt in F.
  rewrite set_config_flat. cbv zeta. now rewrite N, F.
Qed.

Lemma set_config_success cfg w :
  config (dev w) <> to_u8 cfg ->
  0 <= status (bus (wire w) (out_msg CMD_CFG (to_u8 cfg))) ->
  set_config bus cfg w =
    (0, mk_world (mk_ch423 (to_u8 cfg) (io_dir (dev w)) (last_output (dev w)))
          (wire w ++ [out_msg CMD_CFG (to_u8 cfg)])).
Proof.
  intros N F. apply Z.eqb_neq in N. apply Z.ltb_ge in F.
  rewrite set_config_flat. cbv zeta. now rewrite N, F.
Qed.

End RegisterCache.

(** *** Which transfers [write_outputs] makes *)

(** C3 as stated does not hold: with the bidirectional group recorded as
    input, a change of byte 0 causes no transfer at all. *)
Lemma write_outputs_input_mode_skips_io :
  let w := device 0 GPIO_LINE_DIRECTION_IN 0 in
  byte 0 1 <> byte 0 (last_output (dev w)) /\
  wire (snd (write_outputs (bus_ok 0) 0 1 w)) = [].
Proof. split; [ discriminate | reflexivity ]. Qed.

(** C3 (amended).  [write_outputs] sends the byte 0 message iff the group
    direction is output and byte 0 differs from the cached byte; it sends the
    byte 1 message iff byte 1 differs and the byte 0 transfer, if any, did not
    fail; it sends the byte 2 message iff byte 2 differs and no earlier
    transfer of the call failed.  Nothing else is sent, and when the three
    bytes are unchanged nothing is sent at all. *)
Theorem write_outputs_transfers (bus : adapter) (junk values : Z) (w : world) :
  let d := dev w in
  let t0 := (io_dir d =? GPIO_LINE_DIRECTION_OUT) && differs 0 values d in
  let sent0 := if t0 then [msg_io values] else [] in
  let fail0 := t0 && (status (bus (wire w) (msg_io values)) <? 0) in
  let t1 := negb fail0 && differs 1 values d in
  let sent1 := if t1 then [msg_oc_l values] else [] in
  let fail1 := t1 && (status (bus (wire w ++ sent0) (msg_oc_l values)) <? 0) in
  let t2 := negb fail0 && negb fail1 && differs 2 values d in
  let sent2 := if t2 then [msg_oc_h values] else [] in
  wire (snd (write_outputs bus junk values w)) = wire w ++ sent0 ++ sent1 ++ sent2
  /\ (differs 0 values d = false -> differs 1 values d = false ->
      differs 2 values d = false ->
      wire (snd (write_outputs bus junk values w)) = wire w).
Proof.
  rewrite write_outputs_flat. cbv zeta. split.
  - destruct (io_dir (dev w) =? GPIO_LINE_DIRECTION_OUT);
      destruct (differs 0 values (dev w));
      destruct (differs 1 values (dev w));
      destruct (differs 2 values (dev w));
      cbn [andb negb app]; rewrite ?app_nil_r;
      split_ifs; cbn [snd wire app];
      rewrite <- ?app_assoc, ?app_nil_r; cbn [app]; try reflexivity; congruence.
  - intros H0 H1 H2. rewrite H0, H1, H2.
    rewrite andb_false_r. reflexivity.
Qed.

Lemma write_outputs_transfers_witness :
  let w := device 0 GPIO_LINE_DIRECTION_OUT 0x010203 in
  wire (snd (write_outputs (bus_ok 0) 0 0x010204 w)) = [msg_io 0x010204]
  /\ wire (snd (write_outputs (bus_ok 0) 0 0x010203 w)) = [].
Proof.
  split.
  - exact (proj1 (write_outputs_transfers (bus_ok 0) 0 0x010204
                    (device 0 GPIO_LINE_DIRECTION_OUT 0x010203))).
  - apply (proj2 (write_outputs_transfers (bus_ok 0) 0 0x010203
                    (device 0 GPIO_LINE_DIRECTION_OUT 0x010203)));
      reflexivity.
Defined.

(** *** Failures inside [write_outputs] *)

(** C1 as stated does not hold: after a successful byte 0 transfer and a
    failed byte 1 transfer the failure is returned, but the cached word still
    holds the old byte 0, not the byte just written. *)
Lemma write_outputs_failure_keeps_old_first_byte :
  let bus := bus_fail_on CMD_SET_OC_L in
  let w := device 1 GPIO_LINE_DIRECTION_OUT 0 in
  let w' := snd (write_outputs bus 0 0x0101 w) in
  wire w' = [msg_io 0x0101; msg_oc_l 0x0101] /\
  0 <= status (bus [] (msg_io 0x0101)) /\
  status (bus [msg_io 0x0101] (msg_oc_l 0x0101)) < 0 /\
  fst (write_outputs bus 0 0x0101 w) = - EIO /\
  byte 0 (last_output (dev w')) = 0 /\
  byte 0 (last_output (dev w')) <> byte 0 0x0101.
Proof. vm_compute. repeat split; discriminate. Qed.

(** C1 (amended).  When the byte 0 transfer (command 0x30) of a call
    succeeds and the following byte 1 transfer (command 0x22) fails, the call
    returns that failure and leaves the whole device record, the cached
    output word included, as it was before the call: the cache keeps the old
    value of the failed byte and does not take up the byte already written. *)
Theorem write_outputs_failure_after_success
  (bus : adapter) (junk values : Z) (w : world)
  (Hout : io_dir (dev w) = GPIO_LINE_DIRECTION_OUT)
  (Hd0 : byte 0 values <> byte 0 (last_output (dev w)))
  (Hd1 : byte 1 values <> byte 1 (last_output (dev w)))
  (Hok0 : 0 <= status (bus (wire w) (msg_io values)))
  (Hfail1 : status (bus (wire w ++ [msg_io values]) (msg_oc_l values)) < 0) :
  write_outputs bus junk values w =
    (status (bus (wire w ++ [msg_io values]) (msg_oc_l values)),
     mk_world (dev w) (wire w ++ [msg_io values; msg_oc_l values])).
Proof.
  rewrite write_outputs_flat. cbv zeta. unfold differs.
  rewrite Hout, Z.eqb_refl.
  apply Z.eqb_neq in Hd0, Hd1. rewrite Hd0, Hd1.
  apply Z.ltb_ge in Hok0. apply Z.ltb_lt in Hfail1.
  cbn [andb negb]. rewrite Hok0, Hfail1.
  now rewrite <- app_assoc.
Qed.

Lemma write_outputs_failure_after_success_witness :
  write_outputs (bus_fail_on CMD_SET_OC_L) 0 0x0101
    (device 1 GPIO_LINE_DIRECTION_OUT 0)
  = (- EIO,
     mk_world (mk_ch423 1 GPIO_LINE_DIRECTION_OUT 0)
       [msg_io 0x0101; msg_oc_l 0x0101]).
Proof.
  apply (write_outputs_failure_after_success (bus_fail_on CMD_SET_OC_L) 0
           0x0101 (device 1 GPIO_LINE_DIRECTION_OUT 0));
    vm_compute; congruence.
Defined.

(** C2 (the code departs from it).  With an adapter that fails the byte 2
    transfer (command 0x23) after a successful byte 1 transfer, the call
    still returns 0 and records the whole desired word as written. *)
Theorem write_outputs_oc_h_error_unreported (junk : Z) :
  let bus := bus_fail_on CMD_SET_OC_H in
  let w := device 0 GPIO_LINE_DIRECTION_IN 0 in
  status (bus [msg_oc_l 0x010100] (msg_oc_h 0x010100)) = - EIO /\
  write_outputs bus junk 0x010100 w =
    (0, mk_world (mk_ch423 0 GPIO_LINE_DIRECTION_IN 0x010100)
          [msg_oc_l 0x010100; msg_oc_h 0x010100]).
Proof. split; reflexivity. Qed.

(** *** [set_config] *)

(** C6 as stated does not hold: two calls with the value that is already
    cached make no transfer at all, and two calls on an adapter that fails
    the first transfer make two. *)
Lemma set_config_twice_not_always_one :
  let w := device 0x10 GPIO_LINE_DIRECTION_IN 0 in
  wire (snd (set_config (bus_ok 0) 0x10 (snd (set_config (bus_ok 0) 0x10 w))))
    = [] /\
  wire (snd (set_config bus_fail_first 0x11
               (snd (set_config bus_fail_first 0x11 w))))
    = [out_msg CMD_CFG 0x11; out_msg CMD_CFG 0x11].
Proof. split; reflexivity. Qed.

(** C6 (amended).  [set_config] makes no transfer and returns 0 when the
    desired byte equals the cached configuration; otherwise it makes exactly
    one write of command 0x24 carrying the desired byte, and replaces the
    cached configuration only if that transfer succeeds.  Two calls in a row
    with the same desired byte make exactly one transfer in total when the
    byte differs from the cached configuration and the first transfer
    succeeds. *)
Theorem set_config_compare_and_write (bus : adapter) (desired : Z) (w : world) :
  let cfg := to_u8 desired in
  let m := out_msg CMD_CFG cfg in
  let r := status (bus (wire w) m) in
  (config (dev w) = cfg -> set_config bus desired w = (0, w)) /\
  (config (dev w) <> cfg ->
     wire (snd (set_config bus desired w)) = wire w ++ [m] /\
     (0 <= r ->
        set_config bus desired w =
          (0, mk_world (mk_ch423 cfg (io_dir (dev w)) (last_output (dev w)))
                (wire w ++ [m]))) /\
     (r < 0 ->
        set_config bus desired w = (r, mk_world (dev w) (wire w ++ [m])))) /\
  (config (dev w) <> cfg -> 0 <= r ->
     wire (snd (set_config bus desired (snd (set_config bus desired w))))
       = wire w ++ [m]).
Proof.
  cbv zeta. repeat split.
  - intros E. rewrite set_config_flat. cbv zeta.
    apply Z.eqb_eq in E. now rewrite E.
  - apply Z.eqb_neq in H. rewrite set_config_flat. cbv zeta. rewrite H.
    now destruct (_ <? 0).
  - intros Hr. apply Z.eqb_neq in H. apply Z.ltb_ge in Hr.
    rewrite set_config_flat. cbv zeta. now rewrite H, Hr.
  - intros Hr. apply Z.eqb_neq in H. apply Z.ltb_lt in Hr.
    rewrite set_config_flat. cbv zeta. now rewrite H, Hr.
  - intros N Hr. apply Z.eqb_neq in N. apply Z.ltb_ge in Hr.
    rewrite (set_config_flat bus desired w). cbv zeta. rewrite N, Hr.
    cbn [snd]. rewrite set_config_flat. cbv zeta. cbn [dev config].
    now rewrite Z.eqb_refl.
Qed.

Lemma set_config_compare_and_write_witness :
  let w := device 0 GPIO_LINE_DIRECTION_IN 0 in
  set_config (bus_ok 0) 0 w = (0, w) /\
  set_config (bus_ok 0) 0x10 w
    = (0, mk_world (mk_ch423 0x10 GPIO_LINE_DIRECTION_IN 0)
            [out_msg CMD_CFG 0x10]) /\
  set_config (bus_fail_on CMD_CFG) 0x10 w
    = (- EIO, mk_world (mk_ch423 0 GPIO_LINE_DIRECTION_IN 0)
                [out_msg CMD_CFG 0x10]) /\
  wire (snd (set_config (bus_ok 0) 0x10 (snd (set_config (bus_ok 0) 0x10 w))))
    = [out_msg CMD_CFG 0x10].
Proof.
  pose (w := device 0 GPIO_LINE_DIRECTION_IN 0).
  split; [ | split; [ | split ] ].
  - apply (proj1 (set_config_compare_and_write (bus_ok 0) 0 w)). reflexivity.
  - apply (proj1 (proj2 (set_config_compare_and_write (bus_ok 0) 0x10 w)));
      vm_compute; congruence.
  - apply (proj1 (proj2 (set_config_compare_and_write (bus_fail_on CMD_CFG)
                           0x10 w)));
      vm_compute; congruence.
  - apply (proj2 (proj2 (set_config_compare_and_write (bus_ok 0) 0x10 w)));
      vm_compute; congruence.
Defined.

(** ** Bits of the configuration byte and of the output word *)

Module WordFacts.

Lemma testbit_to_u8 x i : Z.testbit (to_u8 x) i = (i <? 8) && Z.testbit x i.
Proof. unfold to_u8. apply Z.testbit_mod_pow2. lia. Qed.

Lemma testbit_to_ulong x i :
  Z.testbit (to_ulong x) i = (i <? 64) && Z.testbit x i.
Proof. unfold to_ulong. apply Z.testbit_mod_pow2. lia. Qed.

Lemma testbit_above x n i :
  0 <= n -> 0 <= x < 2 ^ n -> n <= i -> Z.testbit x i = false.
Proof.
  intros Hn Hx Hi. rewrite <- (Z.mod_small x (2 ^ n)) by assumption.
  rewrite Z.testbit_mod_pow2 by assumption.
  apply andb_false_iff. left. apply Z.ltb_ge. assumption.
Qed.

Lemma BIT_pow2 k : 0 <= k < 64 -> BIT k = 2 ^ k.
Proof.
  intros Hk. unfold BIT, to_ulong.
  rewrite Z.shiftl_1_l. apply Z.mod_small. split.
  - apply Z.pow_nonneg. lia.
  - apply Z.pow_lt_mono_r; lia.
Qed.

Lemma testbit_BIT k i : 0 <= k < 64 -> Z.testbit (BIT k) i = (k =? i).
Proof. intros Hk. rewrite BIT_pow2 by assumption. apply Z.pow2_bits_eqb. lia. Qed.

Lemma testbit_ulong_not x i :
  0 <= i -> Z.testbit (ulong_not x) i = (i <? 64) && negb (Z.testbit x i).
Proof.
  intros Hi. unfold ulong_not.
  now rewrite testbit_to_ulong, Z.lnot_spec by assumption.
Qed.

(** Setting bit [k] of a byte. *)
Lemma set_bit_u8 c k i :
  0 <= c < 256 -> 0 <= k < 8 ->
  Z.testbit (to_u8 (Z.lor c (BIT k))) i = Z.testbit c i || (k =? i).
Proof.
  intros Hc Hk. rewrite testbit_to_u8, Z.lor_spec, testbit_BIT by lia.
  destruct (Z.ltb_spec i 8) as [Hlt | Hge]; cbn [andb]; [ reflexivity | ].
  rewrite (testbit_above c 8 i) by lia.
  symmetry. apply orb_false_iff. split; [ reflexivity | ].
  apply Z.eqb_neq. lia.
Qed.

(** Clearing bit [k] of a byte. *)
Lemma clear_bit_u8 c k i :
  0 <= c < 256 -> 0 <= k < 8 ->
  Z.testbit (to_u8 (Z.land c (ulong_not (BIT k)))) i
  = Z.testbit c i && negb (k =? i).
Proof.
  intros Hc Hk. destruct (Z_lt_le_dec i 0) as [Hneg | Hpos].
  - now rewrite !Z.testbit_neg_r by assumption.
  - rewrite testbit_to_u8, Z.land_spec, testbit_ulong_not, testbit_BIT by lia.
    destruct (Z.ltb_spec i 8) as [Hlt | Hge]; cbn [andb].
    + destruct (Z.ltb_spec i 64); [ reflexivity | lia ].
    + now rewrite (testbit_above c 8 i) by lia.
Qed.

(** The bit that [(b >> n) & 1] extracts. *)
Lemma shiftr_land_1 b n : 0 <= n -> Z.land (Z.shiftr b n) 1 = Z.b2z (Z.testbit b n).
Proof.
  intros Hn. change 1 with (Z.ones 1).
  rewrite Z.land_ones, Z.shiftr_div_pow2, Z.testbit_spec' by lia.
  reflexivity.
Qed.

(** [value << offset] for a value of 0 or 1 and a line number below 24 is
    representable as [int] and as [unsigned long]. *)
Lemma shifted_value_exact value offset :
  value = 0 \/ value = 1 -> 0 <= offset < 24 ->
  to_ulong (to_int (Z.shiftl value offset)) = value * 2 ^ offset.
Proof.
  intros Hv Ho. rewrite Z.shiftl_mul_pow2 by lia.
  assert (Hp : 0 < 2 ^ offset <= 2 ^ 23).
  { split; [ apply Z.pow_pos_nonneg; lia | apply Z.pow_le_mono_r; lia ]. }
  change (2 ^ 23) with 8388608 in Hp.
  unfold to_int, to_ulong.
  change (2 ^ 31) with 2147483648. change (2 ^ 32) with 4294967296.
  change (2 ^ 64) with 18446744073709551616.
  rewrite (Z.mod_small (value * 2 ^ offset + 2147483648)) by nia.
  rewrite Z.mod_small by nia. lia.
Qed.

End WordFacts.
Import WordFacts.

(** ** The line controller *)

Section LineController.

Variable bus : adapter.
Variable junk : Z.
Variable pinconf : Z -> pin_config_param.

Lemma ch423_gpio_get_flat offset w :
  ch423_gpio_get bus offset w =
    let r := bus (wire w) read_msg in
    (if status r <? 0 then status r
     else Z.land (Z.shiftr (to_u8 (rdata r)) offset) 0x01,
     mk_world (dev w) (wire w ++ [read_msg])).
Proof.
  unfold ch423_gpio_get, read_msg. unfold_body. cbv zeta.
  split_ifs; reflexivity.
Qed.

Lemma ch423_gpio_set_flat offset value w :
  ch423_gpio_set bus junk offset value w =
    (tt, snd (write_outputs bus junk
                (set_values (last_output (dev w)) offset value) w)).
Proof.
  unfold ch423_gpio_set. unfold_body.
  now destruct (write_outputs _ _ _ w).
Qed.

Lemma ch423_gpio_set_multiple_flat mask bits w :
  ch423_gpio_set_multiple bus junk mask bits w =
    (tt, snd (write_outputs bus junk
                (set_multiple_values (last_output (dev w)) mask bits) w)).
Proof.
  unfold ch423_gpio_set_multiple. unfold_body.
  now destruct (write_outputs _ _ _ w).
Qed.

Lemma ch423_gpio_direction_input_flat offset w :
  ch423_gpio_direction_input bus offset w =
    if 8 <=? offset then (- EINVAL, w)
    else
      let res :=
        set_config bus (Z.land (config (dev w)) (ulong_not CMD_CFG_IO_OE)) w in
      (fst res,
       if fst res =? 0
       then mk_world (mk_ch423 (config (dev (snd res))) GPIO_LINE_DIRECTION_IN
                        (last_output (dev (snd res))))
              (wire (snd res))
       else snd res).
Proof.
  unfold ch423_gpio_direction_input. unfold_body.
  destruct (8 <=? offset); [ reflexivity | ].
  cbv zeta. destruct (set_config _ _ w) as [r w1]. cbn [fst snd].
  destruct (r =? 0); reflexivity.
Qed.

Lemma ch423_gpio_direction_output_flat offset value w :
  ch423_gpio_direction_output bus junk offset value w =
    if (offset <? 8) && negb (io_dir (dev w) =? GPIO_LINE_DIRECTION_OUT)
    then
      let res := set_config bus (Z.lor (config (dev w)) CMD_CFG_IO_OE) w in
      if fst res <? 0 then res
      else
        (0, snd (ch423_gpio_set bus junk offset value
                   (mk_world (mk_ch423 (config (dev (snd res)))
                                GPIO_LINE_DIRECTION_OUT
                                (last_output (dev (snd res))))
                      (wire (snd res)))))
    else (0, snd (ch423_gpio_set bus junk offset value w)).
Proof.
  unfold ch423_gpio_direction_output. unfold_body.
  destruct ((offset <? 8) && negb (io_dir (dev w) =? GPIO_LINE_DIRECTION_OUT)).
  - cbv zeta. destruct (set_config _ _ w) as [r w1]. cbn [fst snd].
    destruct (r <? 0); [ reflexivity | ].
    unfold_body. now destruct (ch423_gpio_set _ _ _ _ _).
  - now destruct (ch423_gpio_set _ _ _ _ w).
Qed.

Lemma ch423_gpio_set_config_flat offset cfg w :
  ch423_gpio_set_config bus pinconf offset cfg w =
    if offset <? 8 then (- ENOTSUPP, w)
    else match pinconf cfg with
         | PIN_CONFIG_DRIVE_OPEN_DRAIN =>
             set_config bus (Z.lor (config (dev w)) CMD_CFG_OD_EN) w
         | PIN_CONFIG_DRIVE_PUSH_PULL =>
             set_config bus (Z.land (config (dev w)) (ulong_not CMD_CFG_OD_EN)) w
         | PIN_CONFIG_OTHER _ => (- ENOTSUPP, w)
         end.
Proof.
  unfold ch423_gpio_set_config. unfold_body.
  destruct (offset <? 8); [ reflexivity | ].
  destruct (pinconf cfg); unfold_body;
    try (now destruct (set_config _ _ w)); reflexivity.
Qed.

(** What [write_outputs] leaves in the device record: the configuration and
    the direction never change, the output word is the old or the new one. *)
Lemma write_outputs_dev values w :
  let d' := dev (snd (write_outputs bus junk values w)) in
  config d' = config (dev w) /\ io_dir d' = io_dir (dev w) /\
  (last_output d' = last_output (dev w) \/ last_output d' = values).
Proof.
  rewrite write_outputs_flat. cbv zeta.
  split_ifs; cbn [snd dev config io_dir last_output]; auto.
Qed.

(** What [set_config] leaves in the device record. *)
Lemma set_config_dev cfg w :
  let d' := dev (snd (set_config bus cfg w)) in
  io_dir d' = io_dir (dev w) /\ last_output d' = last_output (dev w) /\
  (config d' = config (dev w) \/
   (fst (set_config bus cfg w) = 0 /\ config d' = to_u8 cfg)).
Proof.
  rewrite set_config_flat. cbv zeta.
  split_ifs; cbn [fst snd dev config io_dir last_output]; auto.
Qed.

(** [set_config] returns 0 or a negative status, and after a return of 0 the
    cached configuration is the requested byte. *)
Lemma set_config_result cfg w :
  (fst (set_config bus cfg w) = 0 /\
   config (dev (snd (set_config bus cfg w))) = to_u8 cfg) \/
  (fst (set_config bus cfg w) < 0 /\
   dev (snd (set_config bus cfg w)) = dev w).
Proof.
  rewrite set_config_flat. cbv zeta.
  destruct (Z.eqb_spec (config (dev w)) (to_u8 cfg)) as [E | N].
  - left. cbn [fst snd]. auto.
  - destruct (Z.ltb_spec (status (bus (wire w) (out_msg CMD_CFG (to_u8 cfg)))) 0).
    + right. cbn [fst snd dev]. auto.
    + left. cbn [fst snd dev config]. auto.
Qed.

End LineController.

(** *** Reading a line *)

(** C5 as stated does not hold: reading an output-only line is not refused.
    The read of command 0x26 is made and the call returns 0. *)
Lemma ch423_gpio_get_output_only_line :
  let w := device 0 GPIO_LINE_DIRECTION_IN 0xffff00 in
  ch423_gpio_get (bus_ok 0xff) 10 w = (0, mk_world (dev w) [read_msg]) /\
  fst (ch423_gpio_get (bus_ok 0xff) 10 w) <> - ENOTSUPP.
Proof. split; [ reflexivity | discriminate ]. Qed.

(** C5 (amended).  For every line, the output-only lines 8..23 included,
    [ch423_gpio_get] makes exactly one read of command 0x26 and changes
    nothing in the device record.  If the transfer fails it returns the
    transfer's status; otherwise it returns bit [pin] of the byte read, which
    for a line of 8 and above is 0: no such read is refused. *)
Theorem ch423_gpio_get_reads (bus : adapter) (pin : Z) (w : world)
  (Hpin : 0 <= pin < 24) :
  let r := bus (wire w) read_msg in
  let res := ch423_gpio_get bus pin w in
  addr read_msg = 0x26 /\ flags read_msg = I2C_M_RD /\
  snd res = mk_world (dev w) (wire w ++ [read_msg]) /\
  (status r < 0 -> fst res = status r) /\
  (0 <= status r -> fst res = Z.b2z (Z.testbit (to_u8 (rdata r)) pin)) /\
  (0 <= status r -> 8 <= pin -> fst res = 0).
Proof.
  cbv zeta. rewrite ch423_gpio_get_flat. cbv zeta. cbn [fst snd].
  split; [ reflexivity | ]. split; [ reflexivity | ]. split; [ reflexivity | ].
  split; [ | split ].
  - intros Hr. apply Z.ltb_lt in Hr. now rewrite Hr.
  - intros Hr. apply Z.ltb_ge in Hr. rewrite Hr.
    apply shiftr_land_1. lia.
  - intros Hr H8. apply Z.ltb_ge in Hr. rewrite Hr.
    rewrite shiftr_land_1 by lia.
    rewrite (testbit_above (to_u8 (rdata (bus (wire w) read_msg))) 8 pin);
      [ reflexivity | lia | apply to_u8_range | assumption ].
Qed.

Lemma ch423_gpio_get_reads_witness :
  let w := device 0 GPIO_LINE_DIRECTION_IN 0 in
  fst (ch423_gpio_get (bus_ok 0xa5) 2 w) = 1 /\
  fst (ch423_gpio_get (bus_ok 0xa5) 10 w) = 0 /\
  fst (ch423_gpio_get (bus_fail_on CMD_READ_IO) 2 w) = - EIO.
Proof.
  pose (w := device 0 GPIO_LINE_DIRECTION_IN 0).
  split; [ | split ].
  - apply (proj1 (proj2 (proj2 (proj2 (proj2
             (ch423_gpio_get_reads (bus_ok 0xa5) 2 w ltac:(lia))))))).
    vm_compute. congruence.
  - apply (proj2 (proj2 (proj2 (proj2 (proj2
             (ch423_gpio_get_reads (bus_ok 0xa5) 10 w ltac:(lia))))))).
    + vm_compute. congruence.
    + lia.
  - apply (proj1 (proj2 (proj2 (proj2
             (ch423_gpio_get_reads (bus_fail_on CMD_READ_IO) 2 w ltac:(lia)))))).
    reflexivity.
Defined.

(** *** Reporting of transfer failures *)

(** C4 as stated does not hold: [ch423_gpio_set] returns nothing, so its
    caller sees the same result whether the output transfer failed or not,
    and [ch423_gpio_direction_output] returns 0 although the only transfer it
    made failed. *)
Lemma output_write_failure_dropped :
  let bad := bus_fail_on CMD_SET_OC_L in
  let w := device 0 GPIO_LINE_DIRECTION_IN 0 in
  wire (snd (ch423_gpio_set bad 0 8 1 w)) = [msg_oc_l 0x100] /\
  status (bad [] (msg_oc_l 0x100)) = - EIO /\
  fst (ch423_gpio_set bad 0 8 1 w) = fst (ch423_gpio_set (bus_ok 0) 0 8 1 w) /\
  wire (snd (ch423_gpio_direction_output bad 0 8 1 w)) = [msg_oc_l 0x100] /\
  fst (ch423_gpio_direction_output bad 0 8 1 w) = 0.
Proof. repeat split. Qed.

(** C4 (amended).  A failed transfer is returned to the caller by
    [ch423_gpio_get] (the read) and by [ch423_gpio_direction_input],
    [ch423_gpio_direction_output] and [ch423_gpio_set_config] for their
    configuration write.  [ch423_gpio_set] and [ch423_gpio_set_multiple]
    return nothing, and the only result of [ch423_gpio_direction_output]
    other than 0 is the status of a failed configuration write: a failure of
    the output write is not reported by any of the three. *)
Theorem transfer_failures_reported
  (bus : adapter) (junk : Z) (pinconf : Z -> pin_config_param) (w : world) :
  let cfg_msg := fun c => out_msg CMD_CFG (to_u8 c) in
  let failed := fun c =>
    config (dev w) <> to_u8 c /\ status (bus (wire w) (cfg_msg c)) < 0 in
  let io_in := Z.land (config (dev w)) (ulong_not CMD_CFG_IO_OE) in
  let io_out := Z.lor (config (dev w)) CMD_CFG_IO_OE in
  let od_on := Z.lor (config (dev w)) CMD_CFG_OD_EN in
  let od_off := Z.land (config (dev w)) (ulong_not CMD_CFG_OD_EN) in
  (forall pin, status (bus (wire w) read_msg) < 0 ->
     fst (ch423_gpio_get bus pin w) = status (bus (wire w) read_msg)) /\
  (forall pin, pin < 8 -> failed io_in ->
     fst (ch423_gpio_direction_input bus pin w)
     = status (bus (wire w) (cfg_msg io_in))) /\
  (forall pin value, pin < 8 -> io_dir (dev w) <> GPIO_LINE_DIRECTION_OUT ->
     failed io_out ->
     fst (ch423_gpio_direction_output bus junk pin value w)
     = status (bus (wire w) (cfg_msg io_out))) /\
  (forall pin c, 8 <= pin -> pinconf c = PIN_CONFIG_DRIVE_OPEN_DRAIN ->
     failed od_on ->
     fst (ch423_gpio_set_config bus pinconf pin c w)
     = status (bus (wire w) (cfg_msg od_on))) /\
  (forall pin c, 8 <= pin -> pinconf c = PIN_CONFIG_DRIVE_PUSH_PULL ->
     failed od_off ->
     fst (ch423_gpio_set_config bus pinconf pin c w)
     = status (bus (wire w) (cfg_msg od_off))) /\
  (forall pin value, fst (ch423_gpio_set bus junk pin value w) = tt) /\
  (forall mask bits, fst (ch423_gpio_set_multiple bus junk mask bits w) = tt) /\
  (forall pin value,
     fst (ch423_gpio_direction_output bus junk pin value w) = 0 \/
     (pin < 8 /\ io_dir (dev w) <> GPIO_LINE_DIRECTION_OUT /\ failed io_out /\
      fst (ch423_gpio_direction_output bus junk pin value w)
      = status (bus (wire w) (cfg_msg io_out)))).
Proof.
  cbv zeta.
  assert (Hfail : forall c,
    config (dev w) <> to_u8 c /\
    status (bus (wire w) (out_msg CMD_CFG (to_u8 c))) < 0 ->
    set_config bus c w
    = (status (bus (wire w) (out_msg CMD_CFG (to_u8 c))),
       mk_world (dev w) (wire w ++ [out_msg CMD_CFG (to_u8 c)]))).
  { intros c [N F]. now apply set_config_failure. }
  split; [ | split; [ | split; [ | split; [ | split; [ | split; [ | split ] ] ] ] ] ].
  - intros pin F. rewrite ch423_gpio_get_flat. cbv zeta. cbn [fst].
    apply Z.ltb_lt in F. now rewrite F.
  - intros pin Hp F. rewrite ch423_gpio_direction_input_flat.
    apply Z.leb_gt in Hp. rewrite Hp. cbv zeta. now rewrite (Hfail _ F).
  - intros pin value Hp Hd F. rewrite ch423_gpio_direction_output_flat.
    apply Z.ltb_lt in Hp. apply Z.eqb_neq in Hd. rewrite Hp, Hd. cbn [andb negb].
    cbv zeta. rewrite (Hfail _ F). cbn [fst].
    destruct F as [_ F]. apply Z.ltb_lt in F. now rewrite F.
  - intros pin c Hp Hc F. rewrite ch423_gpio_set_config_flat.
    apply Z.ltb_ge in Hp. rewrite Hp, Hc. now rewrite (Hfail _ F).
  - intros pin c Hp Hc F. rewrite ch423_gpio_set_config_flat.
    apply Z.ltb_ge in Hp. rewrite Hp, Hc. now rewrite (Hfail _ F).
  - intros pin value. now destruct (fst _).
  - intros mask bits. now destruct (fst _).
  - intros pin value. rewrite ch423_gpio_direction_output_flat.
    destruct (Z.ltb_spec pin 8) as [Hp | Hp]; cbn [andb]; [ | now left ].
    destruct (Z.eqb_spec (io_dir (dev w)) GPIO_LINE_DIRECTION_OUT) as [Hd | Hd];
      cbn [negb]; [ now left | ].
    cbv zeta. rewrite set_config_flat. cbv zeta.
    destruct (Z.eqb_spec (config (dev w))
                (to_u8 (Z.lor (config (dev w)) CMD_CFG_IO_OE))) as [E | N].
    + now left.
    + destruct (Z.ltb_spec
                  (status (bus (wire w)
                     (out_msg CMD_CFG (to_u8 (Z.lor (config (dev w)) CMD_CFG_IO_OE)))))
                  0) as [F | F]; cbn [fst].
      * apply Z.ltb_lt in F. rewrite F. right. apply Z.ltb_lt in F. auto.
      * left. reflexivity.
Qed.

Lemma transfer_failures_reported_witness :
  fst (ch423_gpio_get (bus_fail_on CMD_READ_IO) 3
         (device 0 GPIO_LINE_DIRECTION_IN 0)) = - EIO /\
  fst (ch423_gpio_direction_input (bus_fail_on CMD_CFG) 3
         (device 1 GPIO_LINE_DIRECTION_OUT 0)) = - EIO /\
  fst (ch423_gpio_direction_output (bus_fail_on CMD_CFG) 0 3 1
         (device 0 GPIO_LINE_DIRECTION_IN 0)) = - EIO /\
  fst (ch423_gpio_set_config (bus_fail_on CMD_CFG) pinconf_low_byte 8 6
         (device 0 GPIO_LINE_DIRECTION_IN 0)) = - EIO /\
  fst (ch423_gpio_set_config (bus_fail_on CMD_CFG) pinconf_low_byte 8 8
         (device 0x10 GPIO_LINE_DIRECTION_IN 0)) = - EIO.
Proof.
  split; [ | split; [ | split; [ | split ] ] ].
  - destruct (transfer_failures_reported (bus_fail_on CMD_READ_IO) 0
                pinconf_low_byte (device 0 GPIO_LINE_DIRECTION_IN 0))
      as (H & _).
    apply (H 3). vm_compute. reflexivity.
  - destruct (transfer_failures_reported (bus_fail_on CMD_CFG) 0
                pinconf_low_byte (device 1 GPIO_LINE_DIRECTION_OUT 0))
      as (_ & H & _).
    apply (H 3); [ lia | ]. split; vm_compute; congruence.
  - destruct (transfer_failures_reported (bus_fail_on CMD_CFG) 0
                pinconf_low_byte (device 0 GPIO_LINE_DIRECTION_IN 0))
      as (_ & _ & H & _).
    apply (H 3 1); [ lia | vm_compute; congruence | ].
    split; vm_compute; congruence.
  - destruct (transfer_failures_reported (bus_fail_on CMD_CFG) 0
                pinconf_low_byte (device 0 GPIO_LINE_DIRECTION_IN 0))
      as (_ & _ & _ & H & _).
    apply (H 8 6); [ lia | reflexivity | ].
    split; vm_compute; congruence.
  - destruct (transfer_failures_reported (bus_fail_on CMD_CFG) 0
                pinconf_low_byte (device 0x10 GPIO_LINE_DIRECTION_IN 0))
      as (_ & _ & _ & _ & H & _).
    apply (H 8 8); [ lia | reflexivity | ].
    split; vm_compute; congruence.
Defined.

(** *** Direction of the bidirectional group *)

(** The state [ch423_probe] leaves behind on success is coherent. *)
Lemma ch423_probe_coherent (bus : adapter) (junk add_data : Z)
  (hist : list i2c_msg) :
  0 <= status (bus hist (out_msg CMD_CFG 0)) ->
  coherent (dev (snd (ch423_probe bus junk add_data (zeroed hist)))).
Proof.
  intros Hok. unfold ch423_probe. unfold_body.
  rewrite set_config_flat. cbv zeta. cbn [dev config wire zeroed].
  change (to_u8 0) with 0. change (255 =? 0) with false. cbv iota.
  apply Z.ltb_ge in Hok. rewrite Hok. cbn [fst snd]. unfold_body.
  change (negb (0 =? 0)) with false. cbv beta iota. unfold_body.
  destruct (write_outputs _ _ _ _) as [r w1] eqn:E. cbn [fst snd].
  pose proof (write_outputs_dev bus junk 0
    (mk_world (mk_ch423 0 GPIO_LINE_DIRECTION_IN 16776960)
       (hist ++ [out_msg CMD_CFG 0]))) as Hd.
  cbv zeta in Hd. unfold out_msg in *. rewrite E in Hd. cbn [snd dev config io_dir] in Hd.
  destruct Hd as (Hc & Hi & _).
  right. destruct (negb (r =? 0)); cbn [snd]; rewrite Hc, Hi; split; reflexivity.
Qed.

Section GroupDirection.

Variable bus : adapter.
Variable junk : Z.
Variable pinconf : Z -> pin_config_param.

Lemma coherent_same d d' :
  config d' = config d -> io_dir d' = io_dir d -> coherent d -> coherent d'.
Proof. unfold coherent. intros -> ->. trivial. Qed.

Lemma write_outputs_only_outputs values w :
  exists outs,
    wire (snd (write_outputs bus junk values w)) = wire w ++ outs /\
    Forall is_output_msg outs.
Proof.
  assert (H0 : is_output_msg (msg_io values)) by (left; reflexivity).
  assert (H1 : is_output_msg (msg_oc_l values)) by (right; left; reflexivity).
  assert (H2 : is_output_msg (msg_oc_h values))
    by (right; right; left; reflexivity).
  rewrite write_outputs_flat. cbv zeta.
  split_ifs; cbn [snd wire]; rewrite <- ?app_assoc; cbn [app];
    try (eexists; split; [ reflexivity | auto ]);
    exists []; rewrite app_nil_r; auto.
Qed.

Lemma write_outputs_coherent values w :
  coherent (dev w) -> coherent (dev (snd (write_outputs bus junk values w))).
Proof.
  destruct (write_outputs_dev bus junk values w) as (Hc & Hd & _).
  now apply coherent_same.
Qed.

Lemma ch423_gpio_set_coherent offset value w :
  coherent (dev w) ->
  coherent (dev (snd (ch423_gpio_set bus junk offset value w))).
Proof. rewrite ch423_gpio_set_flat. apply write_outputs_coherent. Qed.

Lemma ch423_gpio_set_multiple_coherent mask bits w :
  coherent (dev w) ->
  coherent (dev (snd (ch423_gpio_set_multiple bus junk mask bits w))).
Proof. rewrite ch423_gpio_set_multiple_flat. apply write_outputs_coherent. Qed.

Lemma io_oe_set c : Z.testbit (to_u8 (Z.lor c CMD_CFG_IO_OE)) 0 = true.
Proof.
  rewrite testbit_to_u8, Z.lor_spec. cbn [andb Z.ltb Z.compare].
  apply orb_true_r.
Qed.

Lemma io_oe_clear c :
  Z.testbit (to_u8 (Z.land c (ulong_not CMD_CFG_IO_OE))) 0 = false.
Proof.
  rewrite testbit_to_u8, Z.land_spec. cbn [andb Z.ltb Z.compare].
  apply andb_false_r.
Qed.

Lemma ch423_gpio_direction_input_coherent offset w :
  coherent (dev w) ->
  coherent (dev (snd (ch423_gpio_direction_input bus offset w))).
Proof.
  intros Hc. rewrite ch423_gpio_direction_input_flat.
  destruct (8 <=? offset); [ exact Hc | ]. cbv zeta. cbn [snd].
  destruct (set_config_result bus
              (Z.land (config (dev w)) (ulong_not CMD_CFG_IO_OE)) w)
    as [[Hr Hcfg] | [Hr Hdev]].
  - rewrite Hr. cbn [Z.eqb dev config io_dir]. right. split; [ reflexivity | ].
    rewrite Hcfg. apply io_oe_clear.
  - destruct (Z.eqb_spec (fst (set_config bus
                (Z.land (config (dev w)) (ulong_not CMD_CFG_IO_OE)) w)) 0);
      [ lia | ].
    now rewrite Hdev.
Qed.

Lemma ch423_gpio_direction_output_coherent offset value w :
  coherent (dev w) ->
  coherent (dev (snd (ch423_gpio_direction_output bus junk offset value w))).
Proof.
  intros Hc. rewrite ch423_gpio_direction_output_flat.
  destruct ((offset <? 8) && negb (io_dir (dev w) =? GPIO_LINE_DIRECTION_OUT)).
  - cbv zeta.
    destruct (set_config_result bus (Z.lor (config (dev w)) CMD_CFG_IO_OE) w)
      as [[Hr Hcfg] | [Hr Hdev]].
    + rewrite Hr. cbn [Z.ltb Z.compare snd].
      apply ch423_gpio_set_coherent. left. cbn [dev config io_dir].
      split; [ reflexivity | ]. rewrite Hcfg. apply io_oe_set.
    + apply Z.ltb_lt in Hr. rewrite Hr. now rewrite Hdev.
  - cbn [snd]. now apply ch423_gpio_set_coherent.
Qed.

Lemma ch423_gpio_set_config_coherent offset cfg w :
  coherent (dev w) ->
  coherent (dev (snd (ch423_gpio_set_config bus pinconf offset cfg w))).
Proof.
  intros Hc. rewrite ch423_gpio_set_config_flat.
  destruct (offset <? 8); [ exact Hc | ].
  destruct (pinconf cfg); [ | | exact Hc ].
  - destruct (set_config_dev bus (Z.lor (config (dev w)) CMD_CFG_OD_EN) w)
      as (Hd & _ & [Hsame | [_ Hnew]]).
    + now apply (coherent_same (dev w)).
    + unfold coherent in *. rewrite Hd, Hnew.
      now rewrite testbit_to_u8, Z.lor_spec, orb_false_r.
  - destruct (set_config_dev bus
                (Z.land (config (dev w)) (ulong_not CMD_CFG_OD_EN)) w)
      as (Hd & _ & [Hsame | [_ Hnew]]).
    + now apply (coherent_same (dev w)).
    + unfold coherent in *. rewrite Hd, Hnew.
      now rewrite testbit_to_u8, Z.land_spec, andb_true_r.
Qed.

End GroupDirection.

(** C7 as stated does not hold: when the configuration write fails, the
    direction stays recorded as input and [ch423_gpio_get_direction] keeps
    reporting input. *)
Lemma direction_output_config_failure_keeps_input :
  let bus := bus_fail_on CMD_CFG in
  let w := device 0 GPIO_LINE_DIRECTION_IN 0 in
  let w' := snd (ch423_gpio_direction_output bus 0 3 1 w) in
  coherent (dev w) /\
  io_dir (dev w') = GPIO_LINE_DIRECTION_IN /\
  fst (ch423_gpio_get_direction 0 w') = GPIO_LINE_DIRECTION_IN /\
  fst (ch423_gpio_get_direction 0 w') <> GPIO_LINE_DIRECTION_OUT.
Proof.
  split; [ right; split; reflexivity | ].
  split; [ reflexivity | ]. split; [ reflexivity | discriminate ].
Qed.

(** C7 (amended).  For a line below 8, on a device whose group direction is
    recorded as input (and whose cached configuration agrees with it),
    [ch423_gpio_direction_output] first makes exactly one configuration write,
    carrying the cached configuration with the IO_OE bit set; every later
    transfer of the call is an output write.  If the configuration write
    succeeds, the call returns 0, the recorded direction is output and
    [ch423_gpio_get_direction] reports output for each of the lines 0..7.  If
    it fails, the call returns the failure, makes no further transfer and
    leaves the device record as it was. *)
Theorem direction_output_group_coupling
  (bus : adapter) (junk pin value : Z) (w : world)
  (Hpin : 0 <= pin < 8)
  (Hin : io_dir (dev w) = GPIO_LINE_DIRECTION_IN)
  (Hcoh : coherent (dev w)) :
  let cfg := to_u8 (Z.lor (config (dev w)) CMD_CFG_IO_OE) in
  let m := out_msg CMD_CFG cfg in
  let r := status (bus (wire w) m) in
  let res := ch423_gpio_direction_output bus junk pin value w in
  Z.testbit cfg 0 = true /\
  (exists outs,
     wire (snd res) = wire w ++ m :: outs /\ Forall is_output_msg outs) /\
  (0 <= r ->
     fst res = 0 /\
     io_dir (dev (snd res)) = GPIO_LINE_DIRECTION_OUT /\
     config (dev (snd res)) = cfg /\
     forall p, 0 <= p < 8 ->
       fst (ch423_gpio_get_direction p (snd res)) = GPIO_LINE_DIRECTION_OUT) /\
  (r < 0 -> res = (r, mk_world (dev w) (wire w ++ [m]))).
Proof.
  cbv zeta.
  assert (Hbit : Z.testbit (config (dev w)) 0 = false).
  { destruct Hcoh as [[Ho _] | [_ Hb]]; [ | exact Hb ].
    rewrite Hin in Ho. discriminate. }
  assert (Hne : config (dev w) <> to_u8 (Z.lor (config (dev w)) CMD_CFG_IO_OE)).
  { intros E. pose proof (io_oe_set (config (dev w))) as Hs.
    rewrite <- E in Hs. congruence. }
  split; [ apply io_oe_set | ].
  rewrite ch423_gpio_direction_output_flat.
  replace (pin <? 8) with true by (symmetry; apply Z.ltb_lt; lia).
  rewrite Hin. cbn [andb negb Z.eqb GPIO_LINE_DIRECTION_IN GPIO_LINE_DIRECTION_OUT].
  cbv zeta.
  destruct (Z_lt_le_dec
              (status (bus (wire w)
                 (out_msg CMD_CFG (to_u8 (Z.lor (config (dev w)) CMD_CFG_IO_OE)))))
              0) as [F | S].
  - rewrite (set_config_failure bus _ w Hne F). cbn [fst].
    replace (_ <? 0) with true by (symmetry; apply Z.ltb_lt; exact F).
    split; [ | split ].
    + exists []. cbn [snd wire]. split; [ reflexivity | constructor ].
    + intros S. lia.
    + reflexivity.
  - rewrite (set_config_success bus _ w Hne S). cbn [fst snd dev wire config
      last_output Z.ltb Z.compare].
    rewrite ch423_gpio_set_flat. cbn [snd dev last_output].
    set (w2 := mk_world _ (wire w ++ _)).
    set (v := set_values _ _ _).
    destruct (write_outputs_only_outputs bus junk v w2) as (outs & Hw & Hf).
    destruct (write_outputs_dev bus junk v w2) as (Hc & Hd & _).
    split; [ | split ].
    + exists outs. rewrite Hw. subst w2. cbn [wire].
      rewrite <- app_assoc. split; [ reflexivity | exact Hf ].
    + intros _. split; [ reflexivity | ]. split; [ exact Hd | ].
      split; [ exact Hc | ].
      intros p Hp. unfold ch423_gpio_get_direction. unfold_body.
      replace (8 <=? p) with false by (symmetry; apply Z.leb_gt; lia).
      cbn [fst]. exact Hd.
    + intros F. lia.
Qed.

Lemma direction_output_group_coupling_witness :
  let res := ch423_gpio_direction_output (bus_ok 0) 0 3 1
               (device 0 GPIO_LINE_DIRECTION_IN 0) in
  fst res = 0 /\
  io_dir (dev (snd res)) = GPIO_LINE_DIRECTION_OUT /\
  config (dev (snd res)) = 1 /\
  forall p, 0 <= p < 8 ->
    fst (ch423_gpio_get_direction p (snd res)) = GPIO_LINE_DIRECTION_OUT.
Proof.
  assert (Hc : coherent (dev (device 0 GPIO_LINE_DIRECTION_IN 0)))
    by (right; split; reflexivity).
  apply (proj1 (proj2 (proj2
           (direction_output_group_coupling (bus_ok 0) 0 3 1
              (device 0 GPIO_LINE_DIRECTION_IN 0)
              ltac:(lia) eq_refl Hc)))).
  vm_compute. congruence.
Defined.

(** C8.  For a line of 8 and above [ch423_gpio_direction_input] returns
    [-EINVAL] and changes nothing.  For a line below 8 it hands the cached
    configuration with the IO_OE bit cleared (and no other bit changed) to
    [set_config] and returns its result; the direction is recorded as input
    exactly when that result is 0, and on a failure the device record is left
    as it was. *)
Theorem direction_input_range_and_commit (bus : adapter) (pin : Z) (w : world)
  (Hrange : config_in_range (dev w)) :
  let cleared := Z.land (config (dev w)) (ulong_not CMD_CFG_IO_OE) in
  let sc := set_config bus cleared w in
  let res := ch423_gpio_direction_input bus pin w in
  (8 <= pin -> res = (- EINVAL, w)) /\
  (pin < 8 ->
     Z.testbit (to_u8 cleared) 0 = false /\
     (forall i, i <> 0 ->
        Z.testbit (to_u8 cleared) i = Z.testbit (config (dev w)) i) /\
     fst res = fst sc /\
     wire (snd res) = wire (snd sc) /\
     config (dev (snd res)) = config (dev (snd sc)) /\
     last_output (dev (snd res)) = last_output (dev w) /\
     (fst res = 0 ->
        io_dir (dev (snd res)) = GPIO_LINE_DIRECTION_IN /\
        config (dev (snd res)) = to_u8 cleared) /\
     (fst res <> 0 -> fst res < 0 /\ dev (snd res) = dev w)).
Proof.
  cbv zeta. rewrite ch423_gpio_direction_input_flat. split.
  - intros H8. apply Z.leb_le in H8. now rewrite H8.
  - intros H8. apply Z.leb_gt in H8. rewrite H8. cbv zeta. cbn [fst snd].
    set (cleared := Z.land (config (dev w)) (ulong_not CMD_CFG_IO_OE)).
    split; [ apply io_oe_clear | ].
    split.
    { intros i Hi. unfold cleared, CMD_CFG_IO_OE.
      rewrite clear_bit_u8 by (try exact Hrange; lia).
      replace (0 =? i) with false by (symmetry; apply Z.eqb_neq; lia).
      apply andb_true_r. }
    destruct (set_config_dev bus cleared w) as (Hd & Hl & _).
    destruct (set_config_result bus cleared w) as [[Hr Hcfg] | [Hr Hdev]].
    + rewrite Hr. cbn [Z.eqb dev wire config io_dir last_output].
      repeat split; auto; intros; congruence.
    + destruct (Z.eqb_spec (fst (set_config bus cleared w)) 0) as [E | N];
        [ lia | ].
      repeat split; auto; intros; congruence.
Qed.

Lemma direction_input_range_and_commit_witness :
  ch423_gpio_direction_input (bus_ok 0) 10 (device 1 GPIO_LINE_DIRECTION_OUT 0)
    = (- EINVAL, device 1 GPIO_LINE_DIRECTION_OUT 0) /\
  io_dir (dev (snd (ch423_gpio_direction_input (bus_ok 0) 3
                      (device 1 GPIO_LINE_DIRECTION_OUT 0))))
    = GPIO_LINE_DIRECTION_IN /\
  dev (snd (ch423_gpio_direction_input (bus_fail_on CMD_CFG) 3
              (device 1 GPIO_LINE_DIRECTION_OUT 0)))
    = dev (device 1 GPIO_LINE_DIRECTION_OUT 0).
Proof.
  assert (Hr : config_in_range (dev (device 1 GPIO_LINE_DIRECTION_OUT 0)))
    by (unfold config_in_range; cbn; lia).
  split; [ | split ].
  - apply (proj1 (direction_input_range_and_commit (bus_ok 0) 10
                    (device 1 GPIO_LINE_DIRECTION_OUT 0) Hr)).
    lia.
  - destruct (proj2 (direction_input_range_and_commit (bus_ok 0) 3
                       (device 1 GPIO_LINE_DIRECTION_OUT 0) Hr) ltac:(lia))
      as (_ & _ & _ & _ & _ & _ & H & _).
    apply H. reflexivity.
  - destruct (proj2 (direction_input_range_and_commit (bus_fail_on CMD_CFG) 3
                       (device 1 GPIO_LINE_DIRECTION_OUT 0) Hr) ltac:(lia))
      as (_ & _ & _ & _ & _ & _ & _ & H).
    apply H. vm_compute. congruence.
Defined.

(** *** Setting a line *)

(** C9.  For a line below 24 and a value of 0 or 1, the word that
    [ch423_gpio_set] computes and hands to [write_outputs] has bit [pin]
    equal to the value and every other bit equal to the cached bit. *)
Theorem set_values_single_bit
  (bus : adapter) (junk pin value : Z) (w : world)
  (Hlast : 0 <= last_output (dev w) < 2 ^ 64)
  (Hpin : 0 <= pin < 24)
  (Hval : value = 0 \/ value = 1) :
  let desired := set_values (last_output (dev w)) pin value in
  ch423_gpio_set bus junk pin value w
    = (tt, snd (write_outputs bus junk desired w)) /\
  (forall i, i <> pin ->
     Z.testbit desired i = Z.testbit (last_output (dev w)) i) /\
  Z.testbit desired pin = (value =? 1).
Proof.
  cbv zeta. split; [ apply ch423_gpio_set_flat | ].
  unfold set_values. rewrite shifted_value_exact by assumption.
  assert (Hv : forall i, Z.testbit (value * 2 ^ pin) i = (value =? 1) && (pin =? i)).
  { intros i. destruct Hval as [-> | ->].
    - rewrite Z.mul_0_l. apply Z.testbit_0_l.
    - rewrite Z.mul_1_l. cbn [Z.eqb Pos.eqb andb].
      apply Z.pow2_bits_eqb. lia. }
  split.
  - intros i Hi. destruct (Z_lt_le_dec i 0) as [Hneg | Hpos].
    { now rewrite !Z.testbit_neg_r by assumption. }
    rewrite Z.lor_spec, Z.land_spec, Hv, testbit_ulong_not, testbit_BIT by lia.
    replace (pin =? i) with false by (symmetry; apply Z.eqb_neq; lia).
    rewrite andb_false_r, orb_false_r. cbn [negb]. rewrite andb_true_r.
    destruct (Z.ltb_spec i 64) as [Hlt | Hge].
    + apply andb_true_r.
    + rewrite (testbit_above (last_output (dev w)) 64 i) by lia. reflexivity.
  - rewrite Z.lor_spec, Z.land_spec, Hv, testbit_ulong_not, testbit_BIT by lia.
    rewrite Z.eqb_refl. cbn [negb]. now rewrite !andb_false_r, andb_true_r.
Qed.

Lemma set_values_single_bit_witness :
  Z.testbit (set_values 0xf0f0f0 5 0) 5 = false /\
  Z.testbit (set_values 0xf0f0f0 5 0) 4 = Z.testbit 0xf0f0f0 4.
Proof.
  destruct (set_values_single_bit (bus_ok 0) 0 5 0
              (device 0 GPIO_LINE_DIRECTION_OUT 0xf0f0f0)
              ltac:(cbn; lia) ltac:(lia) (or_introl eq_refl))
    as (_ & Hother & Hbit).
  split; [ exact Hbit | apply Hother; lia ].
Defined.

(** One batch of [ch423_gpio_set_multiple] touching only the high byte makes
    a single transfer, under command 0x23. *)
Example set_multiple_high_byte_only (junk : Z) :
  wire (snd (ch423_gpio_set_multiple (bus_ok 0) junk 0xff0000 0xff0000
               (device 0 GPIO_LINE_DIRECTION_IN 0)))
  = [out_msg CMD_SET_OC_H 0xff].
Proof. destruct junk; reflexivity. Qed.

(** *** Drive mode of the output-only lines *)

(** C10.  For a line of 8 and above, [ch423_gpio_set_config] with the
    open-drain (respectively push-pull) parameter leaves every bit of the
    cached configuration other than OD_EN (bit 4), the recorded direction and
    the cached output word as they were, and when it returns 0 the OD_EN bit
    is set (respectively clear).  With any other parameter it returns
    [-ENOTSUPP], makes no transfer and changes nothing. *)
Theorem set_config_drive_mode_frame
  (bus : adapter) (pinconf : Z -> pin_config_param) (pin c : Z) (w : world)
  (Hpin : 8 <= pin)
  (Hrange : config_in_range (dev w)) :
  let res := ch423_gpio_set_config bus pinconf pin c w in
  let d' := dev (snd res) in
  let frame :=
    io_dir d' = io_dir (dev w) /\
    last_output d' = last_output (dev w) /\
    (forall i, i <> 4 -> Z.testbit (config d') i = Z.testbit (config (dev w)) i) in
  match pinconf c with
  | PIN_CONFIG_DRIVE_OPEN_DRAIN =>
      frame /\ (fst res = 0 -> Z.testbit (config d') 4 = true)
  | PIN_CONFIG_DRIVE_PUSH_PULL =>
      frame /\ (fst res = 0 -> Z.testbit (config d') 4 = false)
  | PIN_CONFIG_OTHER _ => res = (- ENOTSUPP, w)
  end.
Proof.
  cbv zeta. rewrite ch423_gpio_set_config_flat.
  replace (pin <? 8) with false by (symmetry; apply Z.ltb_ge; exact Hpin).
  destruct (pinconf c); [ | | reflexivity ].
  - destruct (set_config_dev bus (Z.lor (config (dev w)) CMD_CFG_OD_EN) w)
      as (Hd & Hl & Hcfg).
    destruct (set_config_result bus (Z.lor (config (dev w)) CMD_CFG_OD_EN) w)
      as [[Hr Hnew] | [Hr Hdev]].
    + repeat split; auto.
      * intros i Hi. rewrite Hnew. unfold CMD_CFG_OD_EN.
        rewrite set_bit_u8 by (try exact Hrange; lia).
        replace (4 =? i) with false by (symmetry; apply Z.eqb_neq; lia).
        apply orb_false_r.
      * intros _. rewrite Hnew. unfold CMD_CFG_OD_EN.
        rewrite set_bit_u8 by (try exact Hrange; lia). apply orb_true_r.
    + repeat split; auto; try (intros; lia).
      intros i _. now rewrite Hdev.
  - destruct (set_config_dev bus
                (Z.land (config (dev w)) (ulong_not CMD_CFG_OD_EN)) w)
      as (Hd & Hl & Hcfg).
    destruct (set_config_result bus
                (Z.land (config (dev w)) (ulong_not CMD_CFG_OD_EN)) w)
      as [[Hr Hnew] | [Hr Hdev]].
    + repeat split; auto.
      * intros i Hi. rewrite Hnew. unfold CMD_CFG_OD_EN.
        rewrite clear_bit_u8 by (try exact Hrange; lia).
        replace (4 =? i) with false by (symmetry; apply Z.eqb_neq; lia).
        apply andb_true_r.
      * intros _. rewrite Hnew. unfold CMD_CFG_OD_EN.
        rewrite clear_bit_u8 by (try exact Hrange; lia). apply andb_false_r.
    + repeat split; auto; try (intros; lia).
      intros i _. now rewrite Hdev.
Qed.

Lemma set_config_drive_mode_frame_witness :
  let w := device 0x01 GPIO_LINE_DIRECTION_OUT 0x00ff00 in
  Z.testbit (config (dev (snd (ch423_gpio_set_config (bus_ok 0)
                                 pinconf_low_byte 8 6 w)))) 4 = true /\
  Z.testbit (config (dev (snd (ch423_gpio_set_config (bus_ok 0)
                                 pinconf_low_byte 8 6 w)))) 0 = true /\
  ch423_gpio_set_config (bus_ok 0) pinconf_low_byte 8 5 w = (- ENOTSUPP, w).
Proof.
  pose (w := device 0x01 GPIO_LINE_DIRECTION_OUT 0x00ff00).
  assert (Hr : config_in_range (dev w)) by (unfold config_in_range; cbn; lia).
  split; [ | split ].
  - pose proof (set_config_drive_mode_frame (bus_ok 0) pinconf_low_byte 8 6 w
                  ltac:(lia) Hr) as H.
    cbv zeta in H. change (pinconf_low_byte 6) with PIN_CONFIG_DRIVE_OPEN_DRAIN in H.
    cbv iota in H. apply (proj2 H). reflexivity.
  - pose proof (set_config_drive_mode_frame (bus_ok 0) pinconf_low_byte 8 6 w
                  ltac:(lia) Hr) as H.
    cbv zeta in H. change (pinconf_low_byte 6) with PIN_CONFIG_DRIVE_OPEN_DRAIN in H.
    cbv iota in H. destruct H as ((_ & _ & H) & _).
    rewrite H by lia. reflexivity.
  - exact (set_config_drive_mode_frame (bus_ok 0) pinconf_low_byte 8 5 w
             ltac:(lia) Hr).
Defined.

(** ** Attaching the device: [ch423_probe] *)

Section Probe.

Variable bus : adapter.
Variable junk : Z.

Lemma ch423_probe_flat add_data w :
  ch423_probe bus junk add_data w =
    let w1 := mk_world (mk_ch423 0xff GPIO_LINE_DIRECTION_IN
                          (last_output (dev w))) (wire w) in
    let sc := set_config bus 0 w1 in
    if fst sc =? 0 then
      let w2 := mk_world (mk_ch423 (config (dev (snd sc)))
                            (io_dir (dev (snd sc))) 0xffff00)
                  (wire (snd sc)) in
      let wo := write_outputs bus junk 0 w2 in
      if fst wo =? 0 then (add_data, snd wo) else wo
    else sc.
Proof.
  unfold ch423_probe. unfold_body. cbv zeta.
  destruct (set_config bus 0 _) as [r w1]. cbn [fst snd].
  destruct (r =? 0); cbn [negb]; unfold_body; [ | reflexivity ].
  destruct (write_outputs bus junk 0 _) as [r2 w2]. cbn [fst snd].
  destruct (r2 =? 0); reflexivity.
Qed.

End Probe.

(** X1.  When the configuration write and the write of the low output byte
    succeed, [ch423_probe] sends exactly the three resets (configuration 0,
    low and high output byte 0) in that order, leaves the cached
    configuration 0, the direction input and the cached output word 0, and
    returns the result of the registration. *)
Theorem ch423_probe_success
  (bus : adapter) (junk add_data : Z) (hist : list i2c_msg)
  (Hcfg : 0 <= status (bus hist (out_msg CMD_CFG 0)))
  (Hocl : 0 <= status (bus (hist ++ [out_msg CMD_CFG 0])
                         (out_msg CMD_SET_OC_L 0))) :
  ch423_probe bus junk add_data (zeroed hist) =
    (add_data,
     mk_world (mk_ch423 0 GPIO_LINE_DIRECTION_IN 0)
       (hist ++ [out_msg CMD_CFG 0; out_msg CMD_SET_OC_L 0;
                 out_msg CMD_SET_OC_H 0])).
Proof.
  rewrite ch423_probe_flat. cbv zeta. cbn [zeroed dev wire last_output].
  rewrite set_config_success; cbn [dev wire config io_dir last_output];
    [ | discriminate | exact Hcfg ].
  cbn [fst snd dev wire config io_dir last_output Z.eqb].
  rewrite write_outputs_flat. cbv zeta.
  cbn [dev wire config io_dir last_output].
  change (differs 0 0 (mk_ch423 (to_u8 0) GPIO_LINE_DIRECTION_IN 16776960))
    with false.
  change (differs 1 0 (mk_ch423 (to_u8 0) GPIO_LINE_DIRECTION_IN 16776960))
    with true.
  change (differs 2 0 (mk_ch423 (to_u8 0) GPIO_LINE_DIRECTION_IN 16776960))
    with true.
  rewrite andb_false_r. cbn [andb].
  change (to_u8 0) with 0. change (msg_oc_l 0) with (out_msg CMD_SET_OC_L 0).
  change (msg_oc_h 0) with (out_msg CMD_SET_OC_H 0).
  apply Z.ltb_ge in Hocl. rewrite Hocl. cbn [fst snd Z.eqb].
  now rewrite <- !app_assoc.
Qed.

Lemma ch423_probe_success_witness :
  ch423_probe (bus_ok 0) 0 0 (zeroed []) =
    (0, mk_world (mk_ch423 0 GPIO_LINE_DIRECTION_IN 0)
          [out_msg CMD_CFG 0; out_msg CMD_SET_OC_L 0; out_msg CMD_SET_OC_H 0]).
Proof.
  apply (ch423_probe_success (bus_ok 0) 0 0 []); vm_compute; congruence.
Defined.

(** X2.  A failure of the configuration write, or of the write of the low
    output byte, ends [ch423_probe]: it returns the failure without calling
    the registration and sends nothing more.  After a failed configuration
    write the cache still holds 0xff; after a failed low byte write the
    cached output word is still 0xffff00. *)
Theorem ch423_probe_failure
  (bus : adapter) (junk add_data : Z) (hist : list i2c_msg) :
  let r0 := status (bus hist (out_msg CMD_CFG 0)) in
  let r1 := status (bus (hist ++ [out_msg CMD_CFG 0]) (out_msg CMD_SET_OC_L 0)) in
  (r0 < 0 ->
     ch423_probe bus junk add_data (zeroed hist) =
       (r0, mk_world (mk_ch423 0xff GPIO_LINE_DIRECTION_IN 0)
              (hist ++ [out_msg CMD_CFG 0]))) /\
  (0 <= r0 -> r1 < 0 ->
     ch423_probe bus junk add_data (zeroed hist) =
       (r1, mk_world (mk_ch423 0 GPIO_LINE_DIRECTION_IN 0xffff00)
              (hist ++ [out_msg CMD_CFG 0; out_msg CMD_SET_OC_L 0]))).
Proof.
  cbv zeta. split.
  - intros F. rewrite ch423_probe_flat. cbv zeta.
    cbn [zeroed dev wire last_output].
    rewrite set_config_failure; cbn [dev wire config io_dir last_output];
      [ | discriminate | exact F ].
    cbn [fst snd]. change (to_u8 0) with 0.
    destruct (Z.eqb_spec (status (bus hist (out_msg CMD_CFG 0))) 0); [ lia | ].
    reflexivity.
  - intros S F. rewrite ch423_probe_flat. cbv zeta.
    cbn [zeroed dev wire last_output].
    rewrite set_config_success; cbn [dev wire config io_dir last_output];
      [ | discriminate | exact S ].
    cbn [fst snd dev wire config io_dir last_output Z.eqb].
    rewrite write_outputs_flat. cbv zeta.
    cbn [dev wire config io_dir last_output].
    change (differs 0 0 (mk_ch423 (to_u8 0) GPIO_LINE_DIRECTION_IN 16776960))
      with false.
    change (differs 1 0 (mk_ch423 (to_u8 0) GPIO_LINE_DIRECTION_IN 16776960))
      with true.
    rewrite andb_false_r. cbn [andb].
    change (to_u8 0) with 0. change (msg_oc_l 0) with (out_msg CMD_SET_OC_L 0).
    apply Z.ltb_lt in F. rewrite F. cbn [fst].
    apply Z.ltb_lt in F.
    destruct (Z.eqb_spec
                (status (bus (hist ++ [out_msg CMD_CFG 0])
                           (out_msg CMD_SET_OC_L 0))) 0); [ lia | ].
    now rewrite <- app_assoc.
Qed.

Lemma ch423_probe_failure_witness :
  ch423_probe (bus_fail_on CMD_CFG) 0 0 (zeroed []) =
    (- EIO, mk_world (mk_ch423 0xff GPIO_LINE_DIRECTION_IN 0)
              [out_msg CMD_CFG 0]) /\
  ch423_probe (bus_fail_on CMD_SET_OC_L) 0 0 (zeroed []) =
    (- EIO, mk_world (mk_ch423 0 GPIO_LINE_DIRECTION_IN 0xffff00)
              [out_msg CMD_CFG 0; out_msg CMD_SET_OC_L 0]).
Proof.
  split.
  - apply (proj1 (ch423_probe_failure (bus_fail_on CMD_CFG) 0 0 [])).
    vm_compute. reflexivity.
  - apply (proj2 (ch423_probe_failure (bus_fail_on CMD_SET_OC_L) 0 0 []));
      vm_compute; congruence.
Defined.

(** ** Words, bytes and single bits *)

Module OutputWord.

Lemma small_of_bits n x :
  0 <= n -> 0 <= x -> (forall i, n <= i -> Z.testbit x i = false) -> x < 2 ^ n.
Proof.
  intros Hn Hx Hhigh.
  assert (E : x mod 2 ^ n = x).
  { apply Z.bits_inj'. intros i Hi. rewrite Z.testbit_mod_pow2 by assumption.
    destruct (Z.ltb_spec i n) as [Hlt | Hge]; cbn [andb]; [ reflexivity | ].
    symmetry. now apply Hhigh. }
  rewrite <- E. apply Z.mod_pos_bound. apply Z.pow_pos_nonneg; lia.
Qed.

Lemma testbit_byte k x i :
  0 <= k -> 0 <= i ->
  Z.testbit (byte k x) i = (i <? 8) && Z.testbit x (i + 8 * k).
Proof.
  intros Hk Hi. unfold byte. change 0xff with (Z.ones 8).
  rewrite Z.land_spec, Z.shiftr_spec, Z.testbit_ones_nonneg by lia.
  apply andb_comm.
Qed.

Lemma byte_eq_of_bits k x y :
  0 <= k ->
  (forall i, 8 * k <= i < 8 * k + 8 -> Z.testbit x i = Z.testbit y i) ->
  byte k x = byte k y.
Proof.
  intros Hk H. apply Z.bits_inj'. intros i Hi.
  rewrite !testbit_byte by assumption.
  destruct (Z.ltb_spec i 8) as [Hlt | Hge]; cbn [andb]; [ | reflexivity ].
  apply H. lia.
Qed.

Lemma byte_neq_of_bit k x y j :
  0 <= k -> 8 * k <= j < 8 * k + 8 ->
  Z.testbit x j <> Z.testbit y j -> byte k x <> byte k y.
Proof.
  intros Hk Hj N E. apply N.
  assert (B : Z.testbit (byte k x) (j - 8 * k) = Z.testbit (byte k y) (j - 8 * k))
    by now rewrite E.
  rewrite !testbit_byte in B by lia.
  replace (j - 8 * k <? 8) with true in B by (symmetry; apply Z.ltb_lt; lia).
  now replace (j - 8 * k + 8 * k) with j in B by lia.
Qed.

(** The bits of the word [ch423_gpio_set] builds. *)
Lemma set_values_bits last pin value i :
  0 <= last < 2 ^ 64 -> 0 <= pin < 24 -> value = 0 \/ value = 1 ->
  Z.testbit (set_values last pin value) i
  = if pin =? i then value =? 1 else Z.testbit last i.
Proof.
  intros Hlast Hpin Hval. unfold set_values.
  rewrite shifted_value_exact by assumption.
  assert (Hv : Z.testbit (value * 2 ^ pin) i = (value =? 1) && (pin =? i)).
  { destruct Hval as [-> | ->].
    - rewrite Z.mul_0_l. apply Z.testbit_0_l.
    - rewrite Z.mul_1_l. cbn [Z.eqb Pos.eqb andb]. apply Z.pow2_bits_eqb. lia. }
  destruct (Z_lt_le_dec i 0) as [Hneg | Hpos].
  { rewrite !Z.testbit_neg_r by assumption.
    now replace (pin =? i) with false by (symmetry; apply Z.eqb_neq; lia). }
  rewrite Z.lor_spec, Z.land_spec, Hv, testbit_ulong_not, testbit_BIT by lia.
  destruct (Z.eqb_spec pin i) as [-> | Hne]; cbn [negb].
  - now rewrite !andb_false_r, andb_true_r.
  - rewrite andb_false_r, orb_false_r, andb_true_r.
    destruct (Z.ltb_spec i 64) as [Hlt | Hge]; [ apply andb_true_r | ].
    now rewrite (testbit_above last 64 i) by lia.
Qed.

Lemma set_values_nonneg last pin value :
  0 <= last -> 0 <= set_values last pin value.
Proof.
  intros Hlast. unfold set_values. apply Z.lor_nonneg. split.
  - apply Z.land_nonneg. now left.
  - unfold to_ulong. apply Z.mod_pos_bound. lia.
Qed.

(** The word stays within the width of [last] when the line is below it. *)
Lemma set_values_range n last pin value :
  24 <= n <= 64 -> 0 <= last < 2 ^ n -> 0 <= pin < 24 ->
  value = 0 \/ value = 1 -> 0 <= set_values last pin value < 2 ^ n.
Proof.
  intros Hn Hlast Hpin Hval.
  assert (H64 : 0 <= last < 2 ^ 64).
  { split; [ lia | ]. apply Z.lt_le_trans with (2 ^ n); [ lia | ].
    apply Z.pow_le_mono_r; lia. }
  split; [ apply set_values_nonneg; lia | ].
  apply small_of_bits; [ lia | apply set_values_nonneg; lia | ].
  intros i Hi. rewrite set_values_bits by assumption.
  replace (pin =? i) with false by (symmetry; apply Z.eqb_neq; lia).
  apply (testbit_above last n i); lia.
Qed.

(** The bits of the word [ch423_gpio_set_multiple] builds. *)
Lemma set_multiple_values_bits last mask bits i :
  0 <= last < 2 ^ 64 -> 0 <= mask < 2 ^ 64 ->
  Z.testbit (set_multiple_values last mask bits) i
  = if Z.testbit mask i then Z.testbit bits i else Z.testbit last i.
Proof.
  intros Hlast Hmask. unfold set_multiple_values.
  destruct (Z_lt_le_dec i 0) as [Hneg | Hpos].
  { now rewrite !Z.testbit_neg_r by assumption. }
  rewrite Z.lor_spec, !Z.land_spec, testbit_ulong_not by assumption.
  destruct (Z.testbit mask i) eqn:Em; cbn [negb].
  - now rewrite !andb_false_r, andb_true_r.
  - rewrite andb_false_r, orb_false_r, andb_true_r.
    destruct (Z.ltb_spec i 64) as [Hlt | Hge]; [ apply andb_true_r | ].
    now rewrite (testbit_above last 64 i) by lia.
Qed.

Lemma set_multiple_values_range last mask bits :
  0 <= last < 2 ^ 24 -> 0 <= mask < 2 ^ 24 -> 0 <= bits ->
  0 <= set_multiple_values last mask bits < 2 ^ 24.
Proof.
  intros Hlast Hmask Hbits.
  assert (Hnn : 0 <= set_multiple_values last mask bits).
  { unfold set_multiple_values. apply Z.lor_nonneg. split.
    - apply Z.land_nonneg. left. lia.
    - apply Z.land_nonneg. now left. }
  split; [ exact Hnn | ].
  apply small_of_bits; [ lia | exact Hnn | ].
  intros i Hi.
  rewrite set_multiple_values_bits by (change (2 ^ 24) with 16777216 in *;
    change (2 ^ 64) with 18446744073709551616; lia).
  rewrite (testbit_above mask 24 i) by lia.
  apply (testbit_above last 24 i); lia.
Qed.

(** Writing one line: byte [k] of the new word differs from the cached byte
    exactly when the line lies in byte [k] and its bit changes. *)
Lemma differs_set_values k pin value d :
  0 <= k -> 0 <= last_output d < 2 ^ 64 -> 0 <= pin < 24 ->
  value = 0 \/ value = 1 ->
  differs k (set_values (last_output d) pin value) d
  = negb (Bool.eqb (Z.testbit (last_output d) pin) (value =? 1))
    && ((8 * k <=? pin) && (pin <? 8 * k + 8)).
Proof.
  intros Hk Hlast Hpin Hval. unfold differs.
  destruct (Z.leb_spec (8 * k) pin) as [Hlo | Hlo];
    [ destruct (Z.ltb_spec pin (8 * k + 8)) as [Hhi | Hhi] | ]; cbn [andb].
  - destruct (Bool.eqb _ _) eqn:Eb; cbn [negb andb].
    + apply eqb_prop in Eb. apply negb_false_iff, Z.eqb_eq.
      apply byte_eq_of_bits; [ assumption | ]. intros i _.
      rewrite set_values_bits by assumption.
      destruct (Z.eqb_spec pin i) as [<- | _]; congruence.
    + apply eqb_false_iff in Eb. apply negb_true_iff, Z.eqb_neq.
      apply (byte_neq_of_bit k _ _ pin); [ assumption | lia | ].
      rewrite set_values_bits, Z.eqb_refl by assumption. congruence.
  - rewrite andb_false_r. apply negb_false_iff, Z.eqb_eq.
    apply byte_eq_of_bits; [ assumption | ]. intros i Hi.
    rewrite set_values_bits by assumption.
    now replace (pin =? i) with false by (symmetry; apply Z.eqb_neq; lia).
  - rewrite andb_false_r. apply negb_false_iff, Z.eqb_eq.
    apply byte_eq_of_bits; [ assumption | ]. intros i Hi.
    rewrite set_values_bits by assumption.
    now replace (pin =? i) with false by (symmetry; apply Z.eqb_neq; lia).
Qed.

End OutputWord.
Import OutputWord.

(** ** More on the register cache *)

Section CacheCommit.

Variable bus : adapter.
Variable junk : Z.

Lemma write_outputs_outcome values w :
  (fst (write_outputs bus junk values w) = 0 /\
   dev (snd (write_outputs bus junk values w))
   = mk_ch423 (config (dev w)) (io_dir (dev w)) values) \/
  (fst (write_outputs bus junk values w) < 0 /\
   dev (snd (write_outputs bus junk values w)) = dev w).
Proof.
  rewrite write_outputs_flat. cbv zeta.
  split_ifs; cbn [fst snd dev]; auto; right; split; try reflexivity;
    repeat match goal with
      | H : _ && _ = true |- _ => apply andb_true_iff in H; destruct H
      | H : (_ <? 0) = true |- _ => apply Z.ltb_lt in H
      end; assumption.
Qed.

Lemma write_outputs_same values w :
  last_output (dev w) = values -> write_outputs bus junk values w = (0, w).
Proof.
  intros E. rewrite write_outputs_flat. cbv zeta. unfold differs.
  rewrite E, !Z.eqb_refl. cbn [negb]. rewrite andb_false_r. cbn [andb].
  destruct w as [[c d l] h]. cbn in E. now subst.
Qed.

End CacheCommit.

(** X3.  [write_outputs] returns 0 or a negative value.  When it returns 0
    the cached output word is the desired word (configuration and direction
    untouched), and a further call with the same word sends nothing and
    returns 0.  When it returns a negative value the device record is exactly
    as before the call. *)
Theorem write_outputs_commit_or_keep
  (bus : adapter) (junk values : Z) (w : world) :
  let res := write_outputs bus junk values w in
  (fst res = 0 \/ fst res < 0) /\
  (fst res = 0 ->
     dev (snd res) = mk_ch423 (config (dev w)) (io_dir (dev w)) values /\
     forall junk', write_outputs bus junk' values (snd res) = (0, snd res)) /\
  (fst res < 0 -> dev (snd res) = dev w).
Proof.
  cbv zeta.
  destruct (write_outputs_outcome bus junk values w) as [[Hr Hd] | [Hr Hd]].
  - split; [ now left | ]. split; [ | lia ].
    intros _. split; [ exact Hd | ].
    intros junk'. apply write_outputs_same. now rewrite Hd.
  - split; [ now right | ]. split; [ lia | ]. intros _. exact Hd.
Qed.

Lemma write_outputs_commit_or_keep_witness :
  let w := device 1 GPIO_LINE_DIRECTION_OUT 0 in
  last_output (dev (snd (write_outputs (bus_ok 0) 0 0x010203 w))) = 0x010203 /\
  dev (snd (write_outputs (bus_fail_on CMD_SET_IO) 0 0x010203 w)) = dev w.
Proof.
  pose (w := device 1 GPIO_LINE_DIRECTION_OUT 0).
  split.
  - destruct (write_outputs_commit_or_keep (bus_ok 0) 0 0x010203 w)
      as (_ & H & _).
    destruct (H eq_refl) as [Hd _]. cbv zeta. fold w. now rewrite Hd.
  - destruct (write_outputs_commit_or_keep (bus_fail_on CMD_SET_IO) 0 0x010203 w)
      as (_ & _ & H).
    apply H. vm_compute. reflexivity.
Defined.

(** X4.  Writing one line makes at most one transfer.  For a line below 24
    and a value of 0 or 1, [ch423_gpio_set] sends the output message of the
    line's own group, carrying that group's byte of the new word, when the
    line's cached bit changes and the line is driven (it is output-only, or
    the bidirectional group is recorded as output); otherwise it sends
    nothing. *)
Theorem ch423_gpio_set_single_transfer
  (bus : adapter) (junk pin value : Z) (w : world)
  (Hlast : 0 <= last_output (dev w) < 2 ^ 64)
  (Hpin : 0 <= pin < 24)
  (Hval : value = 0 \/ value = 1) :
  let v := set_values (last_output (dev w)) pin value in
  let changed :=
    negb (Bool.eqb (Z.testbit (last_output (dev w)) pin) (value =? 1)) in
  let driven := (8 <=? pin) || (io_dir (dev w) =? GPIO_LINE_DIRECTION_OUT) in
  wire (snd (ch423_gpio_set bus junk pin value w))
  = wire w ++ (if changed && driven then [group_msg pin v] else []).
Proof.
  cbv zeta. rewrite ch423_gpio_set_flat. cbn [snd].
  rewrite write_outputs_flat. cbv zeta.
  rewrite !differs_set_values by (assumption || lia).
  change (8 * 0) with 0. change (8 * 1) with 8. change (8 * 2) with 16.
  change (0 + 8) with 8. change (8 + 8) with 16. change (16 + 8) with 24.
  unfold group_msg.
  destruct (negb (Bool.eqb _ _)); cbn [andb].
  2:{ rewrite andb_false_r. cbn [andb snd wire]. now rewrite app_nil_r. }
  destruct (Z.ltb_spec pin 8) as [H8 | H8].
  - replace (0 <=? pin) with true by (symmetry; apply Z.leb_le; lia).
    replace (8 <=? pin) with false by (symmetry; apply Z.leb_gt; lia).
    replace (16 <=? pin) with false by (symmetry; apply Z.leb_gt; lia).
    cbn [andb orb].
    destruct (io_dir (dev w) =? GPIO_LINE_DIRECTION_OUT); cbn [andb].
    + destruct (_ <? 0); cbn [snd wire]; reflexivity.
    + cbn [snd wire]. now rewrite app_nil_r.
  - replace (8 <=? pin) with true by (symmetry; apply Z.leb_le; lia).
    replace (0 <=? pin) with true by (symmetry; apply Z.leb_le; lia).
    replace (pin <? 24) with true by (symmetry; apply Z.ltb_lt; lia).
    cbn [andb orb]. rewrite andb_false_r. cbn [andb].
    destruct (Z.ltb_spec pin 16) as [H16 | H16].
    + replace (16 <=? pin) with false by (symmetry; apply Z.leb_gt; lia).
      cbn [andb]. destruct (_ <? 0); cbn [snd wire]; reflexivity.
    + replace (16 <=? pin) with true by (symmetry; apply Z.leb_le; lia).
      cbn [andb]. destruct (junk <? 0); cbn [snd wire]; reflexivity.
Qed.

Lemma ch423_gpio_set_single_transfer_witness :
  wire (snd (ch423_gpio_set (bus_ok 0) 0 17 1
               (device 0 GPIO_LINE_DIRECTION_IN 0x010000)))
  = [msg_oc_h 0x030000].
Proof.
  exact (ch423_gpio_set_single_transfer (bus_ok 0) 0 17 1
           (device 0 GPIO_LINE_DIRECTION_IN 0x010000)
           ltac:(cbn; lia) ltac:(lia) (or_intror eq_refl)).
Defined.

(** ** Batches *)

(** X5.  The word [ch423_gpio_set_multiple] hands to [write_outputs] takes
    each bit under the mask from [bits] and every other bit from the cached
    word; with an empty mask the call sends nothing and changes nothing. *)
Theorem ch423_gpio_set_multiple_masked
  (bus : adapter) (junk mask bits : Z) (w : world)
  (Hlast : 0 <= last_output (dev w) < 2 ^ 64)
  (Hmask : 0 <= mask < 2 ^ 64) :
  let desired := set_multiple_values (last_output (dev w)) mask bits in
  ch423_gpio_set_multiple bus junk mask bits w
    = (tt, snd (write_outputs bus junk desired w)) /\
  (forall i, Z.testbit desired i
             = if Z.testbit mask i then Z.testbit bits i
               else Z.testbit (last_output (dev w)) i) /\
  (mask = 0 -> ch423_gpio_set_multiple bus junk mask bits w = (tt, w)).
Proof.
  cbv zeta. split; [ apply ch423_gpio_set_multiple_flat | ].
  split; [ intros i; now apply set_multiple_values_bits | ].
  intros ->. rewrite ch423_gpio_set_multiple_flat.
  rewrite write_outputs_same; [ reflexivity | ].
  apply Z.bits_inj'. intros i _.
  rewrite set_multiple_values_bits by assumption.
  now rewrite Z.testbit_0_l.
Qed.

Lemma ch423_gpio_set_multiple_masked_witness :
  let w := device 0 GPIO_LINE_DIRECTION_OUT 0x0f0f0f in
  Z.testbit (set_multiple_values 0x0f0f0f 0x00ff00 0x123456) 10
    = Z.testbit 0x123456 10 /\
  ch423_gpio_set_multiple (bus_ok 0) 0 0 0x123456 w = (tt, w).
Proof.
  pose (w := device 0 GPIO_LINE_DIRECTION_OUT 0x0f0f0f).
  destruct (ch423_gpio_set_multiple_masked (bus_ok 0) 0 0x00ff00 0x123456 w
              ltac:(cbn; lia) ltac:(lia)) as (_ & Hbits & _).
  destruct (ch423_gpio_set_multiple_masked (bus_ok 0) 0 0 0x123456 w
              ltac:(cbn; lia) ltac:(lia)) as (_ & _ & Hempty).
  split; [ exact (Hbits 10) | exact (Hempty eq_refl) ].
Defined.

(** X6.  Writing one line is the batch with that line alone under the mask:
    for a line below 24 and a value of 0 or 1, [ch423_gpio_set_multiple]
    with mask [BIT(pin)] and any [bits] holding the value at [pin] does
    exactly what [ch423_gpio_set] does. *)
Theorem ch423_gpio_set_as_batch
  (bus : adapter) (junk pin value bits : Z) (w : world)
  (Hlast : 0 <= last_output (dev w) < 2 ^ 64)
  (Hpin : 0 <= pin < 24)
  (Hval : value = 0 \/ value = 1)
  (Hbits : Z.testbit bits pin = (value =? 1)) :
  ch423_gpio_set_multiple bus junk (BIT pin) bits w
  = ch423_gpio_set bus junk pin value w.
Proof.
  rewrite ch423_gpio_set_multiple_flat, ch423_gpio_set_flat.
  assert (Hb : 0 <= BIT pin < 2 ^ 64).
  { rewrite BIT_pow2 by lia. split.
    - apply Z.pow_nonneg. lia.
    - apply Z.pow_lt_mono_r; lia. }
  replace (set_multiple_values (last_output (dev w)) (BIT pin) bits)
    with (set_values (last_output (dev w)) pin value); [ reflexivity | ].
  apply Z.bits_inj'. intros i _.
  rewrite set_values_bits, set_multiple_values_bits by assumption.
  rewrite testbit_BIT by lia.
  destruct (Z.eqb_spec pin i) as [<- | _]; congruence.
Qed.

Lemma ch423_gpio_set_as_batch_witness :
  ch423_gpio_set_multiple (bus_ok 0) 0 (BIT 9) 0xffffff
    (device 0 GPIO_LINE_DIRECTION_IN 0)
  = ch423_gpio_set (bus_ok 0) 0 9 1 (device 0 GPIO_LINE_DIRECTION_IN 0).
Proof.
  apply (ch423_gpio_set_as_batch (bus_ok 0) 0 9 1 0xffffff
           (device 0 GPIO_LINE_DIRECTION_IN 0));
    [ cbn; lia | lia | now right | reflexivity ].
Defined.

(** ** Lines written while the group is an input *)

Lemma set_values_idem last pin value :
  0 <= last < 2 ^ 64 -> 0 <= pin < 24 -> value = 0 \/ value = 1 ->
  set_values (set_values last pin value) pin value = set_values last pin value.
Proof.
  intros Hlast Hpin Hval. apply Z.bits_inj'. intros i _.
  rewrite (set_values_bits (set_values last pin value))
    by (try apply (set_values_range 64); assumption || lia).
  rewrite set_values_bits by assumption.
  now destruct (pin =? i).
Qed.

(** X7.  A value written to a bidirectional line while the group is recorded
    as input is cached without any transfer, and a following
    [ch423_gpio_direction_output] for the same line and value makes the
    configuration write only: the line becomes an output, the cache holds the
    value, and no message under command 0x30 has been sent. *)
Theorem set_while_input_is_not_replayed
  (bus : adapter) (junk1 junk2 pin value : Z) (w : world)
  (Hlast : 0 <= last_output (dev w) < 2 ^ 64)
  (Hpin : 0 <= pin < 8)
  (Hval : value = 0 \/ value = 1)
  (Hin : io_dir (dev w) = GPIO_LINE_DIRECTION_IN)
  (Hcoh : coherent (dev w))
  (Hok : 0 <= status (bus (wire w)
                        (out_msg CMD_CFG
                           (to_u8 (Z.lor (config (dev w)) CMD_CFG_IO_OE))))) :
  let v := set_values (last_output (dev w)) pin value in
  let cfg := to_u8 (Z.lor (config (dev w)) CMD_CFG_IO_OE) in
  let w1 := snd (ch423_gpio_set bus junk1 pin value w) in
  let res := ch423_gpio_direction_output bus junk2 pin value w1 in
  w1 = mk_world (mk_ch423 (config (dev w)) GPIO_LINE_DIRECTION_IN v) (wire w) /\
  res = (0, mk_world (mk_ch423 cfg GPIO_LINE_DIRECTION_OUT v)
              (wire w ++ [out_msg CMD_CFG cfg])).
Proof.
  cbv zeta.
  assert (Hbit : Z.testbit (config (dev w)) 0 = false).
  { destruct Hcoh as [[Ho _] | [_ Hb]]; [ | exact Hb ].
    rewrite Hin in Ho. discriminate. }
  assert (Hne : config (dev w) <> to_u8 (Z.lor (config (dev w)) CMD_CFG_IO_OE)).
  { intros E. pose proof (io_oe_set (config (dev w))) as Hs.
    rewrite <- E in Hs. congruence. }
  assert (H1 : snd (ch423_gpio_set bus junk1 pin value w)
               = mk_world (mk_ch423 (config (dev w)) GPIO_LINE_DIRECTION_IN
                             (set_values (last_output (dev w)) pin value))
                   (wire w)).
  { rewrite ch423_gpio_set_flat. cbn [snd]. rewrite write_outputs_flat.
    cbv zeta. rewrite !differs_set_values by (assumption || lia).
    rewrite Hin. change (8 * 1) with 8. change (8 * 2) with 16.
    replace (8 <=? pin) with false by (symmetry; apply Z.leb_gt; lia).
    replace (16 <=? pin) with false by (symmetry; apply Z.leb_gt; lia).
    cbn [andb Z.eqb GPIO_LINE_DIRECTION_IN GPIO_LINE_DIRECTION_OUT].
    rewrite !andb_false_r. reflexivity. }
  split; [ exact H1 | ].
  rewrite H1. rewrite ch423_gpio_direction_output_flat.
  cbn [dev wire config io_dir last_output].
  replace (pin <? 8) with true by (symmetry; apply Z.ltb_lt; lia).
  cbn [andb negb Z.eqb GPIO_LINE_DIRECTION_IN GPIO_LINE_DIRECTION_OUT].
  cbv zeta.
  rewrite set_config_success; cbn [dev wire config io_dir last_output];
    [ | exact Hne | exact Hok ].
  cbn [fst snd dev wire config io_dir last_output Z.ltb Z.compare].
  rewrite ch423_gpio_set_flat. cbn [snd dev last_output].
  rewrite set_values_idem by (assumption || lia).
  rewrite write_outputs_same by reflexivity. reflexivity.
Qed.

Lemma set_while_input_is_not_replayed_witness :
  ch423_gpio_direction_output (bus_ok 0) 0 3 1
    (snd (ch423_gpio_set (bus_ok 0) 0 3 1 (device 0 GPIO_LINE_DIRECTION_IN 0)))
  = (0, mk_world (mk_ch423 1 GPIO_LINE_DIRECTION_OUT 8) [out_msg CMD_CFG 1]).
Proof.
  assert (Hc : coherent (dev (device 0 GPIO_LINE_DIRECTION_IN 0)))
    by (right; split; reflexivity).
  apply (proj2 (set_while_input_is_not_replayed (bus_ok 0) 0 0 3 1
                  (device 0 GPIO_LINE_DIRECTION_IN 0)
                  ltac:(cbn; lia) ltac:(lia) (or_intror eq_refl) eq_refl Hc
                  ltac:(vm_compute; congruence))).
Defined.

(** ** What every sequence of calls keeps *)

Section Invariant.

Variable bus : adapter.
Variable pinconf : Z -> pin_config_param.

Lemma ch423_gpio_get_direction_flat offset w :
  ch423_gpio_get_direction offset w =
    (if 8 <=? offset then GPIO_LINE_DIRECTION_OUT else io_dir (dev w), w).
Proof.
  unfold ch423_gpio_get_direction. unfold_body. now destruct (8 <=? offset).
Qed.

Lemma sane_same d d' :
  config d' = config d -> io_dir d' = io_dir d ->
  last_output d' = last_output d -> sane d -> sane d'.
Proof.
  unfold sane, coherent, config_in_range, output_in_range.
  intros -> -> ->. trivial.
Qed.

Lemma write_outputs_sane junk values w :
  0 <= values < 2 ^ 24 -> sane (dev w) ->
  sane (dev (snd (write_outputs bus junk values w))).
Proof.
  intros Hv (Hc & Hr & Ho).
  destruct (write_outputs_outcome bus junk values w) as [[_ Hd] | [_ Hd]];
    rewrite Hd.
  - exact (conj Hc (conj Hr Hv)).
  - exact (conj Hc (conj Hr Ho)).
Qed.

Lemma set_config_sane cfg w :
  Z.testbit (to_u8 cfg) 0 = Z.testbit (config (dev w)) 0 ->
  sane (dev w) -> sane (dev (snd (set_config bus cfg w))).
Proof.
  intros Hbit (Hc & Hr & Ho).
  destruct (set_config_dev bus cfg w) as (Hd & Hl & [Hsame | [_ Hnew]]).
  - apply (sane_same (dev w)); try assumption. exact (conj Hc (conj Hr Ho)).
  - split; [ | split ].
    + unfold coherent in *. now rewrite Hd, Hnew, Hbit.
    + unfold config_in_range. rewrite Hnew. apply to_u8_range.
    + unfold output_in_range in *. now rewrite Hl.
Qed.

Lemma ch423_gpio_set_sane junk offset value w :
  0 <= offset < 24 -> value = 0 \/ value = 1 -> sane (dev w) ->
  sane (dev (snd (ch423_gpio_set bus junk offset value w))).
Proof.
  intros Hp Hv Hs. rewrite ch423_gpio_set_flat. cbn [snd].
  apply write_outputs_sane; [ | exact Hs ].
  destruct Hs as (_ & _ & Ho). apply (set_values_range 24); try assumption; lia.
Qed.

Lemma ch423_gpio_direction_input_sane offset w :
  sane (dev w) -> sane (dev (snd (ch423_gpio_direction_input bus offset w))).
Proof.
  intros Hs. split; [ | split ].
  - apply ch423_gpio_direction_input_coherent. apply Hs.
  - rewrite ch423_gpio_direction_input_flat.
    destruct (8 <=? offset); [ apply Hs | ]. cbv zeta. cbn [snd].
    destruct (set_config_dev bus
                (Z.land (config (dev w)) (ulong_not CMD_CFG_IO_OE)) w)
      as (_ & _ & [Hsame | [_ Hnew]]);
      destruct (fst _ =? 0); unfold config_in_range; cbn [dev config];
      rewrite ?Hsame, ?Hnew; try apply to_u8_range; apply Hs.
  - rewrite ch423_gpio_direction_input_flat.
    destruct (8 <=? offset); [ apply Hs | ]. cbv zeta. cbn [snd].
    destruct (set_config_dev bus
                (Z.land (config (dev w)) (ulong_not CMD_CFG_IO_OE)) w)
      as (_ & Hl & _).
    destruct (fst _ =? 0); unfold output_in_range; cbn [dev last_output];
      rewrite Hl; apply Hs.
Qed.

Lemma ch423_gpio_direction_output_sane junk offset value w :
  0 <= offset < 24 -> value = 0 \/ value = 1 -> sane (dev w) ->
  sane (dev (snd (ch423_gpio_direction_output bus junk offset value w))).
Proof.
  intros Hp Hv Hs. rewrite ch423_gpio_direction_output_flat.
  destruct ((offset <? 8) && negb (io_dir (dev w) =? GPIO_LINE_DIRECTION_OUT)).
  - cbv zeta.
    destruct (set_config_dev bus (Z.lor (config (dev w)) CMD_CFG_IO_OE) w)
      as (_ & Hl & _).
    destruct (set_config_result bus (Z.lor (config (dev w)) CMD_CFG_IO_OE) w)
      as [[Hr Hcfg] | [Hr Hdev]].
    + rewrite Hr. cbn [Z.ltb Z.compare snd].
      apply ch423_gpio_set_sane; try assumption.
      cbn [dev]. split; [ | split ].
      * left. cbn [config io_dir]. split; [ reflexivity | ].
        rewrite Hcfg. apply io_oe_set.
      * unfold config_in_range. cbn [config]. rewrite Hcfg. apply to_u8_range.
      * unfold output_in_range. cbn [last_output]. rewrite Hl. apply Hs.
    + apply Z.ltb_lt in Hr. rewrite Hr. now rewrite Hdev.
  - cbn [snd]. now apply ch423_gpio_set_sane.
Qed.

Lemma ch423_gpio_set_config_sane offset cfg w :
  sane (dev w) -> sane (dev (snd (ch423_gpio_set_config bus pinconf offset cfg w))).
Proof.
  intros Hs. rewrite ch423_gpio_set_config_flat.
  destruct (offset <? 8); [ exact Hs | ].
  destruct (pinconf cfg); [ | | exact Hs ]; apply set_config_sane; try exact Hs.
  - now rewrite testbit_to_u8, Z.lor_spec, orb_false_r.
  - now rewrite testbit_to_u8, Z.land_spec, andb_true_r.
Qed.

Lemma ch423_gpio_chip_sane junk c w :
  gpiolib_call c -> sane (dev w) ->
  sane (dev (ch423_gpio_chip bus junk pinconf c w)).
Proof.
  intros Hc Hs. destruct c; cbn [ch423_gpio_chip gpiolib_call] in *.
  - now rewrite ch423_gpio_get_direction_flat.
  - now rewrite ch423_gpio_get_flat.
  - destruct Hc. now apply ch423_gpio_set_sane.
  - destruct Hc as [Hm Hb]. rewrite ch423_gpio_set_multiple_flat. cbn [snd].
    apply write_outputs_sane; [ | exact Hs ].
    apply set_multiple_values_range; try assumption. apply Hs.
  - now apply ch423_gpio_direction_input_sane.
  - destruct Hc. now apply ch423_gpio_direction_output_sane.
  - now apply ch423_gpio_set_config_sane.
Qed.

Lemma serve_sane junk calls :
  Forall gpiolib_call calls ->
  forall n w, sane (dev w) -> sane (dev (serve bus junk pinconf n calls w)).
Proof.
  induction 1 as [ | c rest Hc _ IH ]; intros n w Hs; cbn [serve].
  - exact Hs.
  - apply IH. now apply ch423_gpio_chip_sane.
Qed.

(** A probe that returns 0 leaves the reset state. *)
Lemma ch423_probe_zero_dev junk add_data hist :
  fst (ch423_probe bus junk add_data (zeroed hist)) = 0 ->
  dev (snd (ch423_probe bus junk add_data (zeroed hist)))
  = mk_ch423 0 GPIO_LINE_DIRECTION_IN 0.
Proof.
  rewrite ch423_probe_flat. cbv zeta. cbn [zeroed dev wire last_output].
  set (w1 := mk_world _ hist).
  destruct (set_config_dev bus 0 w1) as (Hd & Hl & _).
  destruct (set_config_result bus 0 w1) as [[Hr Hcfg] | [Hr Hdev]].
  - rewrite Hr. cbn [Z.eqb].
    set (w2 := mk_world _ (wire (snd (set_config bus 0 w1)))).
    destruct (write_outputs_outcome bus junk 0 w2) as [[Hw Hdw] | [Hw Hdw]].
    + rewrite Hw. cbn [Z.eqb fst snd]. intros _. rewrite Hdw.
      subst w2. cbn [dev config io_dir]. now rewrite Hcfg, Hd.
    + destruct (Z.eqb_spec (fst (write_outputs bus junk 0 w2)) 0); [ lia | ].
      intros E. lia.
  - destruct (Z.eqb_spec (fst (set_config bus 0 w1)) 0); [ lia | ].
    intros E. lia.
Qed.

End Invariant.

(** X8.  After a probe that returned 0, whatever calls gpiolib makes on the
    24 lines and whatever the bus does, the device record stays sane: the
    recorded direction of the bidirectional group agrees with the IO_OE bit
    of the cached configuration, the cached configuration is a byte and the
    cached output word fits in 24 bits. *)
Theorem serve_keeps_sane
  (bus : adapter) (junk : nat -> Z) (pinconf : Z -> pin_config_param)
  (j0 add_data : Z) (hist : list i2c_msg) (n : nat) (calls : list gpio_call)
  (Hprobe : fst (ch423_probe bus j0 add_data (zeroed hist)) = 0)
  (Hcalls : Forall gpiolib_call calls) :
  sane (dev (serve bus junk pinconf n calls
               (snd (ch423_probe bus j0 add_data (zeroed hist))))).
Proof.
  apply serve_sane; [ exact Hcalls | ].
  rewrite (ch423_probe_zero_dev bus j0 add_data hist Hprobe).
  split; [ | split ].
  - right. split; reflexivity.
  - unfold config_in_range. cbn. lia.
  - unfold output_in_range. cbn. lia.
Qed.

Lemma serve_keeps_sane_witness :
  sane (dev (serve (bus_fail_on CMD_SET_IO) (fun _ => 0) pinconf_low_byte 0
               [call_direction_output 3 1; call_set 9 1;
                call_set_config 12 6; call_direction_input 0]
               (snd (ch423_probe (bus_fail_on CMD_SET_IO) 0 0 (zeroed []))))).
Proof.
  apply (serve_keeps_sane (bus_fail_on CMD_SET_IO) (fun _ => 0)
           pinconf_low_byte 0 0 [] 0).
  - vm_compute. reflexivity.
  - repeat constructor; lia.
Defined.

(** ** Changing direction and drive mode twice *)

Section Reliable.

Variable bus : adapter.
Hypothesis Hbus : reliable bus.

Lemma set_config_reliable cfg w :
  set_config bus cfg w =
    if config (dev w) =? to_u8 cfg then (0, w)
    else (0, mk_world (mk_ch423 (to_u8 cfg) (io_dir (dev w))
                         (last_output (dev w)))
               (wire w ++ [out_msg CMD_CFG (to_u8 cfg)])).
Proof.
  rewrite set_config_flat. cbv zeta.
  destruct (config (dev w) =? to_u8 cfg); [ reflexivity | ].
  pose proof (Hbus (wire w) (out_msg CMD_CFG (to_u8 cfg))) as H.
  apply Z.ltb_ge in H. now rewrite H.
Qed.

Lemma set_config_reliable_dev cfg w :
  fst (set_config bus cfg w) = 0 /\
  dev (snd (set_config bus cfg w))
  = mk_ch423 (to_u8 cfg) (io_dir (dev w)) (last_output (dev w)).
Proof.
  rewrite set_config_reliable.
  destruct (Z.eqb_spec (config (dev w)) (to_u8 cfg)) as [E | N];
    cbn [fst snd dev]; split; try reflexivity.
  rewrite <- E. now destruct (dev w).
Qed.

Lemma write_outputs_reliable junk values w :
  write_outputs bus junk values w =
    let d := dev w in
    let c0 := (io_dir d =? GPIO_LINE_DIRECTION_OUT) && differs 0 values d in
    let c1 := differs 1 values d in
    let c2 := differs 2 values d in
    let h3 := wire w ++ (if c0 then [msg_io values] else [])
                     ++ (if c1 then [msg_oc_l values] else [])
                     ++ (if c2 then [msg_oc_h values] else []) in
    if c2 && negb c1 && negb c0 && (junk <? 0)
    then (junk, mk_world d h3)
    else (0, mk_world (mk_ch423 (config d) (io_dir d) values) h3).
Proof.
  rewrite write_outputs_flat. cbv zeta.
  assert (Hok : forall h m, (status (bus h m) <? 0) = false)
    by (intros h m; apply Z.ltb_ge, Hbus).
  rewrite !Hok.
  destruct ((io_dir (dev w) =? GPIO_LINE_DIRECTION_OUT) && differs 0 values (dev w));
    destruct (differs 1 values (dev w));
    destruct (differs 2 values (dev w));
    cbn [andb negb app]; rewrite <- ?app_assoc, ?app_nil_r; cbn [app];
    try reflexivity; rewrite ?Hok; try reflexivity.
Qed.

End Reliable.

Lemma io_oe_round_trip c :
  0 <= c < 256 -> Z.testbit c 0 = false ->
  to_u8 (Z.land (to_u8 (Z.lor c CMD_CFG_IO_OE)) (ulong_not CMD_CFG_IO_OE)) = c.
Proof.
  intros Hc Hbit. unfold CMD_CFG_IO_OE. apply Z.bits_inj'. intros i Hi.
  rewrite clear_bit_u8 by (try apply to_u8_range; lia).
  rewrite set_bit_u8 by (assumption || lia).
  destruct (Z.eqb_spec 0 i) as [<- | _]; cbn [negb].
  - now rewrite andb_false_r.
  - now rewrite orb_false_r, andb_true_r.
Qed.

(** X9.  On a bus without failures, making a bidirectional line an output
    and then an input again restores the cached configuration: starting from
    a coherent record with the group recorded as input,
    [ch423_gpio_direction_output] followed by [ch423_gpio_direction_input]
    returns 0, records the direction as input and leaves the cached
    configuration byte as it was at the start. *)
Theorem direction_round_trip
  (bus : adapter) (junk pin value : Z) (w : world)
  (Hbus : reliable bus)
  (Hpin : 0 <= pin < 8)
  (Hin : io_dir (dev w) = GPIO_LINE_DIRECTION_IN)
  (Hcoh : coherent (dev w))
  (Hrange : config_in_range (dev w)) :
  let w1 := snd (ch423_gpio_direction_output bus junk pin value w) in
  let res := ch423_gpio_direction_input bus pin w1 in
  io_dir (dev w1) = GPIO_LINE_DIRECTION_OUT /\
  fst res = 0 /\
  io_dir (dev (snd res)) = GPIO_LINE_DIRECTION_IN /\
  config (dev (snd res)) = config (dev w).
Proof.
  cbv zeta.
  assert (Hbit : Z.testbit (config (dev w)) 0 = false).
  { destruct Hcoh as [[Ho _] | [_ Hb]]; [ | exact Hb ].
    rewrite Hin in Ho. discriminate. }
  assert (H1 : config (dev (snd (ch423_gpio_direction_output bus junk pin value w)))
               = to_u8 (Z.lor (config (dev w)) CMD_CFG_IO_OE) /\
               io_dir (dev (snd (ch423_gpio_direction_output bus junk pin value w)))
               = GPIO_LINE_DIRECTION_OUT).
  { rewrite ch423_gpio_direction_output_flat.
    replace (pin <? 8) with true by (symmetry; apply Z.ltb_lt; lia).
    rewrite Hin.
    cbn [andb negb Z.eqb GPIO_LINE_DIRECTION_IN GPIO_LINE_DIRECTION_OUT].
    cbv zeta.
    destruct (set_config_reliable_dev bus Hbus
                (Z.lor (config (dev w)) CMD_CFG_IO_OE) w) as [Hr Hd].
    rewrite Hr. cbn [Z.ltb Z.compare snd]. rewrite ch423_gpio_set_flat.
    cbn [snd].
    match goal with
    | |- config (dev (snd (write_outputs ?b ?j ?v ?w0))) = _ /\ _ =>
        destruct (write_outputs_dev b j v w0) as (Hc & Hi & _)
    end.
    rewrite Hc, Hi. cbn [dev config io_dir]. rewrite Hd. split; reflexivity. }
  destruct H1 as [H1c H1d].
  split; [ exact H1d | ].
  rewrite ch423_gpio_direction_input_flat.
  replace (8 <=? pin) with false by (symmetry; apply Z.leb_gt; lia).
  cbv zeta. cbn [fst snd].
  match goal with
  | |- context [set_config bus ?c ?w0] =>
      destruct (set_config_reliable_dev bus Hbus c w0) as [Hr Hd]
  end.
  rewrite Hr. cbn [Z.eqb dev config io_dir].
  split; [ reflexivity | ]. split; [ reflexivity | ].
  rewrite Hd. cbn [config]. rewrite H1c.
  apply io_oe_round_trip; assumption.
Qed.

Lemma direction_round_trip_witness :
  let w := device 0x10 GPIO_LINE_DIRECTION_IN 0 in
  config (dev (snd (ch423_gpio_direction_input (bus_ok 0) 3
                      (snd (ch423_gpio_direction_output (bus_ok 0) 0 3 1 w)))))
  = 0x10.
Proof.
  assert (Hb : reliable (bus_ok 0)) by (intros h m; cbn; lia).
  assert (Hc : coherent (dev (device 0x10 GPIO_LINE_DIRECTION_IN 0)))
    by (right; split; reflexivity).
  assert (Hr : config_in_range (dev (device 0x10 GPIO_LINE_DIRECTION_IN 0)))
    by (unfold config_in_range; cbn; lia).
  apply (proj2 (proj2 (proj2
           (direction_round_trip (bus_ok 0) 0 3 1
              (device 0x10 GPIO_LINE_DIRECTION_IN 0)
              Hb ltac:(lia) eq_refl Hc Hr)))).
Defined.

Lemma set_config_noop (bus : adapter) cfg w :
  config (dev w) = to_u8 cfg -> set_config bus cfg w = (0, w).
Proof.
  intros E. rewrite set_config_flat. cbv zeta.
  apply Z.eqb_eq in E. now rewrite E.
Qed.

Lemma to_u8_lor_again x m : to_u8 (Z.lor (to_u8 (Z.lor x m)) m) = to_u8 (Z.lor x m).
Proof.
  apply Z.bits_inj'. intros i _.
  rewrite !testbit_to_u8, !Z.lor_spec, testbit_to_u8, Z.lor_spec.
  destruct (i <? 8), (Z.testbit x i), (Z.testbit m i); reflexivity.
Qed.

Lemma to_u8_land_again x m :
  to_u8 (Z.land (to_u8 (Z.land x m)) m) = to_u8 (Z.land x m).
Proof.
  apply Z.bits_inj'. intros i _.
  rewrite !testbit_to_u8, !Z.land_spec, testbit_to_u8, Z.land_spec.
  destruct (i <? 8), (Z.testbit x i), (Z.testbit m i); reflexivity.
Qed.

(** X10.  [ch423_gpio_set_config] refuses every bidirectional line: for a
    line below 8 it returns [-ENOTSUPP] whatever the parameter, without a
    transfer or a change.  For a line of 8 and above, once a call has
    returned 0 the same call again returns 0 without any transfer and
    without changing the device record. *)
Theorem ch423_gpio_set_config_refuses_and_settles
  (bus : adapter) (pinconf : Z -> pin_config_param) (pin c : Z) (w : world) :
  let res := ch423_gpio_set_config bus pinconf pin c w in
  (pin < 8 -> res = (- ENOTSUPP, w)) /\
  (8 <= pin -> fst res = 0 ->
     ch423_gpio_set_config bus pinconf pin c (snd res) = (0, snd res)).
Proof.
  cbv zeta. split.
  - intros Hp. rewrite ch423_gpio_set_config_flat.
    apply Z.ltb_lt in Hp. now rewrite Hp.
  - intros Hp. rewrite !ch423_gpio_set_config_flat.
    apply Z.ltb_ge in Hp. rewrite Hp.
    destruct (pinconf c); [ | | discriminate ]; intros Hr.
    + destruct (set_config_result bus (Z.lor (config (dev w)) CMD_CFG_OD_EN) w)
        as [[_ Hcfg] | [Hneg _]]; [ | lia ].
      apply set_config_noop. rewrite Hcfg. now rewrite to_u8_lor_again.
    + destruct (set_config_result bus
                  (Z.land (config (dev w)) (ulong_not CMD_CFG_OD_EN)) w)
        as [[_ Hcfg] | [Hneg _]]; [ | lia ].
      apply set_config_noop. rewrite Hcfg. now rewrite to_u8_land_again.
Qed.

Lemma ch423_gpio_set_config_refuses_and_settles_witness :
  let w := device 0 GPIO_LINE_DIRECTION_IN 0 in
  ch423_gpio_set_config (bus_ok 0) pinconf_low_byte 2 6 w = (- ENOTSUPP, w) /\
  ch423_gpio_set_config (bus_ok 0) pinconf_low_byte 8 6
    (snd (ch423_gpio_set_config (bus_ok 0) pinconf_low_byte 8 6 w))
  = (0, snd (ch423_gpio_set_config (bus_ok 0) pinconf_low_byte 8 6 w)).
Proof.
  pose (w := device 0 GPIO_LINE_DIRECTION_IN 0).
  split.
  - apply (proj1 (ch423_gpio_set_config_refuses_and_settles (bus_ok 0)
                    pinconf_low_byte 2 6 w)).
    lia.
  - apply (proj2 (ch423_gpio_set_config_refuses_and_settles (bus_ok 0)
                    pinconf_low_byte 8 6 w)).
    + lia.
    + reflexivity.
Defined.

(** ** The cache and the bus on a reliable adapter *)

Section Mirror.

Variable bus : adapter.
Variable pinconf : Z -> pin_config_param.
Hypothesis Hbus : reliable bus.

Lemma last_written_app cmd h t :
  last_written cmd (h ++ t) =
    match last_written cmd t with
    | Some b => Some b
    | None => last_written cmd h
    end.
Proof.
  induction h as [ | m h IH ]; cbn [app last_written].
  - now destruct (last_written cmd t).
  - rewrite IH. now destruct (last_written cmd t).
Qed.

Ltac last_written_tail :=
  rewrite ?last_written_app;
  unfold msg_io, msg_oc_l, msg_oc_h, out_msg, read_msg;
  cbn [last_written app addr buf Z.eqb Pos.eqb
       CMD_CFG CMD_SET_IO CMD_SET_OC_L CMD_SET_OC_H CMD_READ_IO].

Lemma differs_false k values d :
  differs k values d = false -> byte k values = byte k (last_output d).
Proof.
  unfold differs. intros H. apply negb_false_iff in H. now apply Z.eqb_eq.
Qed.

Lemma write_outputs_mirrored junk values w :
  mirrored w -> mirrored (snd (write_outputs bus junk values w)).
Proof.
  intros [Hc Hl]. rewrite (write_outputs_reliable bus Hbus). cbv zeta.
  unfold mirrored.
  destruct ((io_dir (dev w) =? GPIO_LINE_DIRECTION_OUT) && differs 0 values (dev w));
    destruct (differs 1 values (dev w)) eqn:E1;
    destruct (differs 2 values (dev w)) eqn:E2;
    destruct (junk <? 0);
    cbn [andb negb snd dev wire config last_output app];
    last_written_tail; rewrite ?Hc, ?Hl;
    try (apply differs_false in E1; rewrite E1);
    split; reflexivity.
Qed.

Lemma write_outputs_mirrored_high junk values w :
  0 <= junk -> mirrored_high w ->
  mirrored_high (snd (write_outputs bus junk values w)).
Proof.
  intros Hj Hh. rewrite (write_outputs_reliable bus Hbus). cbv zeta.
  unfold mirrored_high in *.
  apply Z.ltb_ge in Hj. rewrite Hj, andb_false_r.
  destruct ((io_dir (dev w) =? GPIO_LINE_DIRECTION_OUT) && differs 0 values (dev w));
    destruct (differs 1 values (dev w));
    destruct (differs 2 values (dev w)) eqn:E2;
    cbn [snd dev wire config last_output app];
    last_written_tail; rewrite ?Hh;
    try (apply differs_false in E2; rewrite E2);
    reflexivity.
Qed.

Lemma set_config_mirrored cfg w :
  mirrored w -> mirrored (snd (set_config bus cfg w)).
Proof.
  intros [Hc Hl]. rewrite (set_config_reliable bus Hbus). unfold mirrored.
  destruct (config (dev w) =? to_u8 cfg); cbn [snd dev wire config last_output].
  - now split.
  - last_written_tail. now rewrite Hl.
Qed.

Lemma set_config_mirrored_high cfg w :
  mirrored_high w -> mirrored_high (snd (set_config bus cfg w)).
Proof.
  intros Hh. rewrite (set_config_reliable bus Hbus). unfold mirrored_high in *.
  destruct (config (dev w) =? to_u8 cfg); cbn [snd dev wire config last_output].
  - exact Hh.
  - last_written_tail. exact Hh.
Qed.

Lemma ch423_gpio_chip_mirrored junk c w :
  mirrored w -> mirrored (ch423_gpio_chip bus junk pinconf c w).
Proof.
  intros Hm. destruct c; cbn [ch423_gpio_chip].
  - now rewrite ch423_gpio_get_direction_flat.
  - rewrite ch423_gpio_get_flat. cbv zeta. destruct Hm as [Hc Hl].
    unfold mirrored. cbn [snd dev wire]. last_written_tail. now split.
  - rewrite ch423_gpio_set_flat. now apply write_outputs_mirrored.
  - rewrite ch423_gpio_set_multiple_flat. now apply write_outputs_mirrored.
  - rewrite ch423_gpio_direction_input_flat.
    destruct (8 <=? offset); [ exact Hm | ]. cbv zeta. cbn [snd].
    pose proof (set_config_mirrored
                  (Z.land (config (dev w)) (ulong_not CMD_CFG_IO_OE)) w Hm) as H.
    destruct (fst _ =? 0); exact H.
  - rewrite ch423_gpio_direction_output_flat.
    destruct ((offset <? 8) && negb (io_dir (dev w) =? GPIO_LINE_DIRECTION_OUT)).
    + cbv zeta.
      pose proof (set_config_mirrored
                    (Z.lor (config (dev w)) CMD_CFG_IO_OE) w Hm) as H.
      destruct (fst _ <? 0); [ exact H | ]. cbn [snd].
      rewrite ch423_gpio_set_flat. apply write_outputs_mirrored. exact H.
    + cbn [snd]. rewrite ch423_gpio_set_flat. now apply write_outputs_mirrored.
  - rewrite ch423_gpio_set_config_flat.
    destruct (offset <? 8); [ exact Hm | ].
    destruct (pinconf cfg); [ | | exact Hm ]; now apply set_config_mirrored.
Qed.

Lemma ch423_gpio_chip_mirrored_high junk c w :
  0 <= junk -> mirrored_high w ->
  mirrored_high (ch423_gpio_chip bus junk pinconf c w).
Proof.
  intros Hj Hm. destruct c; cbn [ch423_gpio_chip].
  - now rewrite ch423_gpio_get_direction_flat.
  - rewrite ch423_gpio_get_flat. cbv zeta.
    unfold mirrored_high in *. cbn [snd dev wire]. last_written_tail.
    exact Hm.
  - rewrite ch423_gpio_set_flat. now apply write_outputs_mirrored_high.
  - rewrite ch423_gpio_set_multiple_flat. now apply write_outputs_mirrored_high.
  - rewrite ch423_gpio_direction_input_flat.
    destruct (8 <=? offset); [ exact Hm | ]. cbv zeta. cbn [snd].
    pose proof (set_config_mirrored_high
                  (Z.land (config (dev w)) (ulong_not CMD_CFG_IO_OE)) w Hm) as H.
    destruct (fst _ =? 0); exact H.
  - rewrite ch423_gpio_direction_output_flat.
    destruct ((offset <? 8) && negb (io_dir (dev w) =? GPIO_LINE_DIRECTION_OUT)).
    + cbv zeta.
      pose proof (set_config_mirrored_high
                    (Z.lor (config (dev w)) CMD_CFG_IO_OE) w Hm) as H.
      destruct (fst _ <? 0); [ exact H | ]. cbn [snd].
      rewrite ch423_gpio_set_flat. apply write_outputs_mirrored_high;
        [ exact Hj | exact H ].
    + cbn [snd]. rewrite ch423_gpio_set_flat.
      now apply write_outputs_mirrored_high.
  - rewrite ch423_gpio_set_config_flat.
    destruct (offset <? 8); [ exact Hm | ].
    destruct (pinconf cfg); [ | | exact Hm ]; now apply set_config_mirrored_high.
Qed.

Lemma serve_mirrored junk calls :
  forall n w, mirrored w -> mirrored (serve bus junk pinconf n calls w).
Proof.
  induction calls as [ | c rest IH ]; intros n w Hm; cbn [serve].
  - exact Hm.
  - apply IH. now apply ch423_gpio_chip_mirrored.
Qed.

Lemma serve_mirrored_high junk calls :
  (forall k, 0 <= junk k) ->
  forall n w, mirrored_high w -> mirrored_high (serve bus junk pinconf n calls w).
Proof.
  intros Hj. induction calls as [ | c rest IH ]; intros n w Hm; cbn [serve].
  - exact Hm.
  - apply IH. now apply ch423_gpio_chip_mirrored_high.
Qed.

(** On a reliable bus the probe goes through and ends in the reset state. *)
Lemma ch423_probe_reliable junk add_data hist :
  ch423_probe bus junk add_data (zeroed hist) =
    (add_data,
     mk_world (mk_ch423 0 GPIO_LINE_DIRECTION_IN 0)
       (hist ++ [out_msg CMD_CFG 0; out_msg CMD_SET_OC_L 0;
                 out_msg CMD_SET_OC_H 0])).
Proof.
  rewrite ch423_probe_flat. cbv zeta. cbn [zeroed dev wire last_output].
  rewrite (set_config_reliable bus Hbus).
  cbn [fst snd dev wire config io_dir last_output].
  change (255 =? to_u8 0) with false. cbv iota.
  cbn [fst snd dev wire config io_dir last_output Z.eqb].
  rewrite (write_outputs_reliable bus Hbus). cbv zeta.
  cbn [dev wire config io_dir last_output].
  change (differs 0 0 (mk_ch423 (to_u8 0) GPIO_LINE_DIRECTION_IN 16776960))
    with false.
  change (differs 1 0 (mk_ch423 (to_u8 0) GPIO_LINE_DIRECTION_IN 16776960))
    with true.
  change (differs 2 0 (mk_ch423 (to_u8 0) GPIO_LINE_DIRECTION_IN 16776960))
    with true.
  rewrite andb_false_r. cbn [andb negb fst snd Z.eqb app].
  now rewrite <- !app_assoc.
Qed.

End Mirror.

(** X11.  On a bus without failures, after the probe and any sequence of
    calls, the cache mirrors what was sent: the byte last written under
    command 0x24 is the cached configuration and the byte last written under
    command 0x22 is byte 1 of the cached output word.  The same holds for
    command 0x23 and byte 2 provided no call found a negative value in the
    uninitialised [ret] of [write_outputs]. *)
Theorem cache_mirrors_reliable_bus
  (bus : adapter) (junk : nat -> Z) (pinconf : Z -> pin_config_param)
  (j0 add_data : Z) (hist : list i2c_msg) (n : nat) (calls : list gpio_call)
  (Hbus : reliable bus) :
  let w := serve bus junk pinconf n calls
             (snd (ch423_probe bus j0 add_data (zeroed hist))) in
  last_written CMD_CFG (wire w) = Some (config (dev w)) /\
  last_written CMD_SET_OC_L (wire w) = Some (byte 1 (last_output (dev w))) /\
  ((forall k, 0 <= junk k) ->
   last_written CMD_SET_OC_H (wire w) = Some (byte 2 (last_output (dev w)))).
Proof.
  cbv zeta. rewrite (ch423_probe_reliable bus Hbus). cbn [snd].
  set (w0 := mk_world _ _).
  assert (Hm : mirrored w0).
  { unfold mirrored, w0. cbn [dev wire config last_output].
    rewrite !last_written_app. split; reflexivity. }
  assert (Hh : mirrored_high w0).
  { unfold mirrored_high, w0. cbn [dev wire config last_output].
    rewrite !last_written_app. reflexivity. }
  destruct (serve_mirrored bus pinconf Hbus junk calls n w0 Hm) as [Hc Hl].
  split; [ exact Hc | ]. split; [ exact Hl | ].
  intros Hj. exact (serve_mirrored_high bus pinconf Hbus junk calls Hj n w0 Hh).
Qed.

Lemma cache_mirrors_reliable_bus_witness :
  let w := serve (bus_ok 0) (fun _ => 0) pinconf_low_byte 0
             [call_direction_output 3 1; call_set 9 1; call_set 17 1;
              call_set_config 12 6; call_get 2]
             (snd (ch423_probe (bus_ok 0) 0 0 (zeroed []))) in
  last_written CMD_CFG (wire w) = Some (config (dev w)) /\
  last_written CMD_SET_OC_L (wire w) = Some (byte 1 (last_output (dev w))) /\
  last_written CMD_SET_OC_H (wire w) = Some (byte 2 (last_output (dev w))).
Proof.
  assert (Hb : reliable (bus_ok 0)) by (intros h m; cbn; lia).
  destruct (cache_mirrors_reliable_bus (bus_ok 0) (fun _ => 0) pinconf_low_byte
              0 0 [] 0
              [call_direction_output 3 1; call_set 9 1; call_set 17 1;
               call_set_config 12 6; call_get 2] Hb) as (Hc & Hl & Hh).
  split; [ exact Hc | ]. split; [ exact Hl | ].
  apply Hh. intros k. lia.
Defined.

(** ** Reported direction *)

(** X12.  On a coherent device record [ch423_gpio_get_direction] makes no
    transfer, changes nothing and reports output exactly for the output-only
    lines and, when the IO_OE bit of the cached configuration is set, for the
    bidirectional lines; otherwise it reports input. *)
Theorem ch423_gpio_get_direction_follows_config (pin : Z) (w : world)
  (Hcoh : coherent (dev w)) :
  ch423_gpio_get_direction pin w =
    (if (8 <=? pin) || Z.testbit (config (dev w)) 0
     then GPIO_LINE_DIRECTION_OUT else GPIO_LINE_DIRECTION_IN,
     w).
Proof.
  rewrite ch423_gpio_get_direction_flat.
  destruct (8 <=? pin); cbn [orb]; [ reflexivity | ].
  destruct Hcoh as [[Hd Hb] | [Hd Hb]]; now rewrite Hd, Hb.
Qed.

Lemma ch423_gpio_get_direction_follows_config_witness :
  ch423_gpio_get_direction 3 (device 0x11 GPIO_LINE_DIRECTION_OUT 0)
  = (GPIO_LINE_DIRECTION_OUT, device 0x11 GPIO_LINE_DIRECTION_OUT 0).
Proof.
  apply (ch423_gpio_get_direction_follows_config 3
           (device 0x11 GPIO_LINE_DIRECTION_OUT 0)).
  left. split; reflexivity.
Defined.

(** ** The untested result of the high byte transfer *)

(** X13.  When only the high output byte has to be written (byte 1 is
    unchanged, and byte 0 is unchanged or the group is not an output),
    [write_outputs] makes that one transfer and then decides on [ret], which
    nothing has assigned: whatever the transfer's status, the call returns 0
    and records the desired word if the value found in [ret] is not
    negative, and otherwise returns that value and records nothing. *)
Theorem write_outputs_high_byte_alone
  (bus : adapter) (junk values : Z) (w : world)
  (H0 : io_dir (dev w) <> GPIO_LINE_DIRECTION_OUT \/
        byte 0 values = byte 0 (last_output (dev w)))
  (H1 : byte 1 values = byte 1 (last_output (dev w)))
  (H2 : byte 2 values <> byte 2 (last_output (dev w))) :
  write_outputs bus junk values w =
    if junk <? 0
    then (junk, mk_world (dev w) (wire w ++ [msg_oc_h values]))
    else (0, mk_world (mk_ch423 (config (dev w)) (io_dir (dev w)) values)
               (wire w ++ [msg_oc_h values])).
Proof.
  rewrite write_outputs_flat. cbv zeta. unfold differs.
  apply Z.eqb_eq in H1. apply Z.eqb_neq in H2. rewrite H1, H2.
  assert (E0 : (io_dir (dev w) =? GPIO_LINE_DIRECTION_OUT)
               && negb (byte 0 values =? byte 0 (last_output (dev w))) = false).
  { destruct H0 as [N | E].
    - apply Z.eqb_neq in N. now rewrite N.
    - apply Z.eqb_eq in E. rewrite E. apply andb_false_r. }
  rewrite E0. cbn [andb negb]. reflexivity.
Qed.

Lemma write_outputs_high_byte_alone_witness :
  write_outputs (bus_fail_on CMD_SET_OC_H) 0 0x010000
    (device 0 GPIO_LINE_DIRECTION_IN 0)
  = (0, mk_world (mk_ch423 0 GPIO_LINE_DIRECTION_IN 0x010000)
          [msg_oc_h 0x010000]) /\
  write_outputs (bus_ok 0) (-1) 0x010000 (device 0 GPIO_LINE_DIRECTION_IN 0)
  = (-1, mk_world (mk_ch423 0 GPIO_LINE_DIRECTION_IN 0) [msg_oc_h 0x010000]).
Proof.
  split.
  - apply (write_outputs_high_byte_alone (bus_fail_on CMD_SET_OC_H) 0 0x010000
             (device 0 GPIO_LINE_DIRECTION_IN 0));
      [ left; discriminate | reflexivity | discriminate ].
  - apply (write_outputs_high_byte_alone (bus_ok 0) (-1) 0x010000
             (device 0 GPIO_LINE_DIRECTION_IN 0));
      [ left; discriminate | reflexivity | discriminate ].
Defined.
